(** * Keithley 617 driver (keithley617.py): shallow embedding and properties

    The module drives a Keithley 617 electrometer through a Prologix
    GPIB-USB adapter.  Its functions are embedded as computations in a small
    state-and-exception monad over a model of the command channel: the
    state records how many lines have been read and the chronological trace
    of channel operations, sleeps and prints.

    The file has three parts: the Python primitives the module relies on
    (string slicing, [%] formatting, [float], [round]), the embedding of the
    module's functions, and the properties proved about them. *)

From Stdlib Require Import ZArith Lia List Bool Ascii String.
From Stdlib Require Import Numbers.DecimalString.
From Stdlib Require Import Floats.PrimFloat Floats.FloatOps Floats.SpecFloat.
Import ListNotations.

Set Warnings "-inexact-float".

Local Open Scope string_scope.
Local Open Scope Z_scope.

(** ** Python primitives *)

Module Py.

(** [sub in s] on strings. *)
Fixpoint contains (sub s : string) : bool :=
  String.prefix sub s ||
  match s with
  | EmptyString => false
  | String _ t => contains sub t
  end.

(** Offset of the first occurrence of [sub] in [s]. *)
Fixpoint find_nat (sub s : string) : option nat :=
  if String.prefix sub s then Some O
  else match s with
       | EmptyString => None
       | String _ t => option_map S (find_nat sub t)
       end.

(** [s.find(sub)]: lowest index of [sub] in [s], -1 when absent. *)
Definition find (sub s : string) : Z :=
  match find_nat sub s with
  | Some n => Z.of_nat n
  | None => -1
  end.

Definition len (s : string) : Z := Z.of_nat (String.length s).

(** A slice bound as Python normalises it: a negative bound counts from the
    end, and the result is clipped to [0, len]. *)
Definition clip (n i : Z) : Z :=
  if i <? 0 then Z.max 0 (i + n) else Z.min i n.

(** [s[i:j]]. *)
Definition slice (i j : Z) (s : string) : string :=
  let lo := clip (len s) i in
  let hi := clip (len s) j in
  if lo <? hi then String.substring (Z.to_nat lo) (Z.to_nat (hi - lo)) s
  else "".

(** Decimal digits of a natural number. *)
Definition digits (n : N) : string := NilZero.string_of_uint (N.to_uint n).

Fixpoint zeros (k : nat) : string :=
  match k with
  | O => ""
  | S k' => String "0" (zeros k')
  end.

(** [fmt % n] for an integer conversion [%0<width>d]: the sign counts in the
    width and the zeros go between the sign and the digits. *)
Definition fmt_0d (width : nat) (n : Z) : string :=
  let d := digits (Z.abs_N n) in
  let sign := if n <? 0 then "-" else "" in
  let used := (String.length sign + String.length d)%nat in
  sign ++ zeros (width - used) ++ d.

(** *** Floats

    Python floats are IEEE 754 binary64 numbers: Rocq's primitive floats. *)

(** Nearest integer to [num / den], ties to even ([0 <= num], [0 < den]). *)
Definition nearest_even (num den : Z) : Z :=
  let q := num / den in
  let r := num mod den in
  match 2 * r ?= den with
  | Lt => q
  | Gt => q + 1
  | Eq => if Z.even q then q else q + 1
  end.

Definition signed_zero (neg : bool) : float :=
  if neg then (-0)%float else 0%float.

Definition signed_infinity (neg : bool) : float :=
  if neg then neg_infinity else infinity.

(** The binary64 number nearest to [(-1)^neg * num / den], ties to even;
    overflow gives an infinity and underflow a signed zero. *)
Definition binary64_of_ratio (neg : bool) (num den : Z) : float :=
  if num <=? 0 then signed_zero neg
  else
    let e0 := Z.log2 num - Z.log2 den in
    let below :=
      if e0 <? 0 then num * 2 ^ (- e0) <? den else num <? den * 2 ^ e0 in
    let l := if below then e0 - 1 else e0 in
    let k := Z.max (l - 52) (-1074) in
    let m :=
      if k <? 0 then nearest_even (num * 2 ^ (- k)) den
      else nearest_even num (den * 2 ^ k) in
    if m =? 0 then signed_zero neg
    else if 1024 <=? Z.log2 m + k then signed_infinity neg
    else SF2Prim (S754_finite neg (Z.to_pos m) k).

(** [float(n)] for an integer. *)
Definition float_of_int (n : Z) : float :=
  binary64_of_ratio (n <? 0) (Z.abs n) 1.

Definition is_space (c : ascii) : bool :=
  let n := N_of_ascii c in
  ((9 <=? n) && (n <=? 13) || (n =? 32))%N.

Definition is_digit (c : ascii) : bool :=
  let n := N_of_ascii c in
  ((48 <=? n) && (n <=? 57))%N.

Definition digit_val (c : ascii) : Z := Z.of_N (N_of_ascii c) - 48.

Definition lower (c : ascii) : ascii :=
  let n := N_of_ascii c in
  if ((65 <=? n) && (n <=? 90))%N then ascii_of_N (n + 32) else c.

Fixpoint lower_string (s : string) : string :=
  match s with
  | EmptyString => EmptyString
  | String c t => String (lower c) (lower_string t)
  end.

Fixpoint lstrip (s : string) : string :=
  match s with
  | String c t => if is_space c then lstrip t else s
  | EmptyString => EmptyString
  end.

Fixpoint rstrip (s : string) : string :=
  match s with
  | EmptyString => EmptyString
  | String c t =>
      match rstrip t with
      | EmptyString => if is_space c then EmptyString else String c EmptyString
      | t' => String c t'
      end
  end.

Definition strip (s : string) : string := rstrip (lstrip s).

(** Reads a run of decimal digits: the accumulated value, the number of
    digits read and the rest of the string. *)
Fixpoint take_digits (s : string) (acc : Z) (n : nat) : Z * nat * string :=
  match s with
  | String c t =>
      if is_digit c then take_digits t (10 * acc + digit_val c) (S n)
      else (acc, n, s)
  | EmptyString => (acc, n, s)
  end.

(** An optional sign: whether it is a minus, and the rest. *)
Definition take_sign (s : string) : bool * string :=
  match s with
  | String "-" t => (true, t)
  | String "+" t => (false, t)
  | _ => (false, s)
  end.

(** The exponent part of a decimal literal, [None] when malformed. *)
Definition take_exponent (s : string) : option Z :=
  match s with
  | EmptyString => Some 0
  | String c t =>
      if (Ascii.eqb c "e" || Ascii.eqb c "E")%bool then
        let '(neg, t1) := take_sign t in
        match take_digits t1 0 O with
        | (_, O, _) => None
        | (v, _, EmptyString) => Some (if neg then - v else v)
        | _ => None
        end
      else None
  end.

(** A decimal literal without sign: mantissa and power of ten. *)
Definition take_decimal (s : string) : option (Z * Z) :=
  let '(ip, ni, r1) := take_digits s 0 O in
  let '(m, nf, r2) :=
    match r1 with
    | String "." t => take_digits t ip O
    | _ => (ip, O, r1)
    end in
  match (ni + nf)%nat with
  | O => None
  | _ =>
      match take_exponent r2 with
      | Some ex => Some (m, ex - Z.of_nat nf)
      | None => None
      end
  end.

(** [float(s)] for a string: [None] stands for the [ValueError] Python
    raises on a string that is not a float literal. *)
Definition float_of_string (s : string) : option float :=
  let '(neg, body) := take_sign (strip s) in
  let word := lower_string body in
  if (String.eqb word "inf" || String.eqb word "infinity")%bool
  then Some (signed_infinity neg)
  else if String.eqb word "nan" then Some nan
  else
    match take_decimal body with
    | Some (m, e) =>
        Some (if e <? 0 then binary64_of_ratio neg m (10 ^ (- e))
              else binary64_of_ratio neg (m * 10 ^ e) 1)
    | None => None
    end.

(** [round(x)] with one argument: the nearest integer as a float, a tie
    going away from zero. *)
Definition round (x : float) : float :=
  match Prim2SF x with
  | S754_finite neg m e =>
      if 0 <=? e then x
      else
        let d := 2 ^ (- e) in
        let q := Z.pos m / d in
        let r := Z.pos m mod d in
        binary64_of_ratio neg (if d <=? 2 * r then q + 1 else q) 1
  | _ => x
  end.

(** ["%.2f" % x]: the decimal with two places nearest to the exact value of
    [x], ties to even. *)
Definition fmt_2f (x : float) : string :=
  match Prim2SF x with
  | S754_nan => "nan"
  | S754_infinity neg => if neg then "-inf" else "inf"
  | S754_zero neg => if neg then "-0.00" else "0.00"
  | S754_finite neg m e =>
      let h :=
        if 0 <=? e then Z.pos m * 2 ^ e * 100
        else nearest_even (Z.pos m * 100) (2 ^ (- e)) in
      let frac := digits (Z.to_N (h mod 100)) in
      (if neg then "-" else "")
        ++ digits (Z.to_N (h / 100)) ++ "."
        ++ zeros (2 - String.length frac) ++ frac
  end.

End Py.

(** ** Values, exceptions and the command channel *)

(** The Python values that cross the module's interface: sample times are
    integers or floats, and the extra arguments handed to the graph callback
    are arbitrary objects, kept opaque under their name. *)
Inductive value : Type :=
| VInt (n : Z)
| VFloat (x : float)
| VStr (s : string)
| VNone
| VObj (name : string).

(** Modelled from the spec: the class [Error] of the module [errors], which
    is not among the sources; it carries the message shown to the user.
    The other exceptions are Python's own. *)
Inductive exn : Type :=
| Error (msg : string)
| NameError (name : string)
| ValueError (text : string)
| TypeError (msg : string)
| IndexError
| IOError.

(** What can be observed of a run, in the order it happens. *)
Inductive event : Type :=
| OpenConnection
| CloseConnection
| ClearSelectedDevice
| Write (cmd : string)
| ReadLine (line : string)
| Sleep (seconds : Z)
| Print (text : string).

(** The channel and what has happened on it: [device k] is the line the
    instrument answers to the [k]-th [readline], [reads] counts the lines
    read so far. *)
Record world : Type := {
  device : nat -> string;
  reads : nat;
  trace : list event
}.

(** A call returns, raises, or is still looping when the fuel of its
    [while] loop runs out. *)
Inductive outcome (A : Type) : Type :=
| Return (a : A)
| Raise (e : exn)
| OutOfFuel.

Arguments Return {A} a.
Arguments Raise {A} e.
Arguments OutOfFuel {A}.

Definition M (A : Type) : Type := world -> outcome A * world.

Definition ret {A : Type} (a : A) : M A := fun w => (Return a, w).

Definition raise {A : Type} (e : exn) : M A := fun w => (Raise e, w).

Definition out_of_fuel {A : Type} : M A := fun w => (OutOfFuel, w).

Definition bind {A B : Type} (m : M A) (k : A -> M B) : M B :=
  fun w =>
    match m w with
    | (Return a, w') => k a w'
    | (Raise e, w') => (Raise e, w')
    | (OutOfFuel, w') => (OutOfFuel, w')
    end.

Declare Scope py_scope.
Delimit Scope py_scope with py.
Bind Scope py_scope with M.

Notation "x <- m ;; k" := (bind m (fun x => k))
  (at level 61, m at next level, right associativity) : py_scope.
Notation "m ;; k" := (bind m (fun _ => k))
  (at level 61, right associativity) : py_scope.

Local Open Scope py_scope.

Definition emit (e : event) : M unit :=
  fun w =>
    (Return tt,
     {| device := device w; reads := reads w; trace := (trace w ++ [e])%list |}).

(** [if c: raise e] *)
Definition raise_if (c : bool) (e : exn) : M unit :=
  if c then raise e else ret tt.

(** [l[-1]] *)
Definition last_item {A : Type} (l : list A) : M A :=
  match rev l with
  | x :: _ => ret x
  | [] => raise IndexError
  end.

(** [print text] *)
Definition print (text : string) : M unit := emit (Print text).

(** [time.sleep(seconds)]; Python 2 refuses a negative duration. *)
Definition sleep (seconds : Z) : M unit :=
  if seconds <? 0 then raise IOError else emit (Sleep seconds).

(** Modelled from the spec: the module [prologixGPIBUSB] (imported as
    [gpib]), which is not among the sources.  The spec describes it as the
    command channel: [write] sends one command line, [readline] blocks for
    one line of response, and there are primitives to open, close and reset.
    Transport failures are outside the model. *)
Module gpib.

Definition open_connection : M unit := emit OpenConnection.

Definition close_connection : M unit := emit CloseConnection.

Definition clear_selected_device : M unit := emit ClearSelectedDevice.

Definition write (cmd : string) : M unit := emit (Write cmd).

Definition readline : M string :=
  fun w =>
    let line := device w (reads w) in
    (Return line,
     {| device := device w; reads := S (reads w);
        trace := (trace w ++ [ReadLine line])%list |}).

End gpib.

(** ** The module keithley617 *)

(** The names bound at module level, in the order the module binds them. *)
Definition module_names : list string :=
  ["time"; "gpib"; "Error"; "Debug"; "close_connection"; "current_mode";
   "disable_voltage_source"; "display_voltage_source";
   "enable_live_readings"; "enable_voltage_source"; "open_connection";
   "do_nothing"; "read_multiple"; "read_one"; "read"; "resistance_mode";
   "set_voltage_source"; "voltage_mode"].

(** Evaluating a name inside a function: it must be a local of the function
    or bound at module level (no builtin is called like the names looked up
    here); otherwise Python raises [NameError]. *)
Definition load_name (locals : list string) (name : string) : M value :=
  if existsb (String.eqb name) (locals ++ module_names)%list
  then ret (VObj name)
  else raise (NameError name).

Definition DeviceNotResponding : exn :=
  Error ("ERROR: The Keithley 617 is not responding, make "
         ++ "sure it is turned on.")%string.

Definition InvalidInterval : exn :=
  Error ("ERROR: The Keithley 617 allows interval values of "
         ++ "0, 1, 10, 60, 600, and 3600")%string.

Definition TooManySamples : exn :=
  Error "ERROR: The Keithley 617 allows a maximum of 100 samples.".

(** The error of the [else] branch that closes the chain of storage
    commands. *)
Definition InvalidSampleInterval : exn :=
  Error ("ERROR: The Keithley 617 allows sample intervals of "
         ++ "0, 1, 10, 60, 600, or 3600 seconds.")%string.

Definition close_connection : M unit := gpib.close_connection.

Definition current_mode : M unit := gpib.write "F1X" ;; sleep 1.

Definition disable_voltage_source : M unit := gpib.write "O0X".

Definition display_voltage_source : M unit := gpib.write "D1X".

Definition enable_live_readings : M unit := ret tt.

Definition enable_voltage_source : M unit := gpib.write "O1X".

Definition open_connection : M unit :=
  gpib.open_connection ;;
  gpib.write "++addr 27" ;;
  gpib.clear_selected_device ;;
  gpib.write "C0X" ;;
  gpib.write "C0X" ;;
  reading <- gpib.readline ;;
  raise_if (negb (Py.contains "DC" reading)) DeviceNotResponding.

(** A graph callback receives the latest time, the latest value and the
    extra arguments. *)
Definition callback : Type := value -> float -> list value -> M unit.

(** [do_nothing(dummy1, dummy2, dummy3)] takes exactly three arguments. *)
Definition do_nothing : callback :=
  fun _ _ args =>
    match args with
    | [_] => ret tt
    | _ => raise (TypeError "do_nothing() takes exactly 3 arguments")
    end.

(** [",%03d" % n] *)
Definition tag (n : Z) : string := ("," ++ Py.fmt_0d 3 n)%string.

(** [float(Datum[4:Datum.find(',')])] *)
Definition sample_text (Datum : string) : string :=
  Py.slice 4 (Py.find "," Datum) Datum.

Definition sample_value (Datum : string) : M float :=
  match Py.float_of_string (sample_text Datum) with
  | Some x => ret x
  | None => raise (ValueError (sample_text Datum))
  end.

(** The chain of [if interval == ...: gpib.write(...)] that opens both
    [read_multiple] and [read_one], the same text in each. *)
Definition store_data (interval : Z) : M unit :=
  if interval =? 0 then gpib.write "B1Q0G2X"
  else if interval =? 1 then gpib.write "B1Q1G2X"
  else if interval =? 10 then gpib.write "B1Q2G2X"
  else if interval =? 60 then gpib.write "B1Q3G2X"
  else if interval =? 600 then gpib.write "B1Q4G2X"
  else if interval =? 3600 then gpib.write "B1Q5G2X"
  else raise InvalidSampleInterval.

(** [interval in [0, 1, 10, 60, 600, 3600]] *)
Definition allowed_interval (interval : Z) : bool :=
  existsb (Z.eqb interval) [0; 1; 10; 60; 600; 3600].

(** The loop of [read_multiple]: its variables, one turn, and the [while]
    with fuel for the number of turns. *)
Module Multiple.

Record state : Type := {
  Time : list value;
  Data : list float;
  CurrentSample : Z;
  Datum : string
}.

Definition poll (st : state) : M state :=
  gpib.write "B1X" ;;
  d <- gpib.readline ;;
  ret {| Time := Time st; Data := Data st;
         CurrentSample := CurrentSample st; Datum := d |}.

Definition body (interval : Z) (update_graph : callback) (args : list value)
    (st : state) : M state :=
  st' <-
    (if Py.contains (tag (CurrentSample st)) (Datum st) then
       x <- sample_value (Datum st) ;;
       let Data' := (Data st ++ [x])%list in
       let Time' :=
         if interval =? 0
         then (Time st
               ++ [VFloat (Py.float_of_int (CurrentSample st - 1) * 0.360)%float])%list
         else (Time st ++ [VInt ((CurrentSample st - 1) * interval)])%list in
       t <- last_item Time' ;;
       d <- last_item Data' ;;
       update_graph t d args ;;
       sleep interval ;;
       ret {| Time := Time'; Data := Data';
              CurrentSample := CurrentSample st + 1; Datum := Datum st |}
     else if Py.contains (tag (CurrentSample st - 1)) (Datum st) then
       sleep interval ;; ret st
     else ret st) ;;
  poll st'.

Fixpoint loop (fuel : nat) (interval samples : Z) (update_graph : callback)
    (args : list value) (st : state) : M state :=
  if CurrentSample st <=? samples then
    match fuel with
    | O => out_of_fuel
    | S fuel' =>
        st' <- body interval update_graph args st ;;
        loop fuel' interval samples update_graph args st'
    end
  else ret st.

End Multiple.

Definition read_multiple (interval samples : Z) (update_graph : callback)
    (args : list value) (fuel : nat) : M (list value * list float) :=
  raise_if (negb (allowed_interval interval)) InvalidInterval ;;
  raise_if (samples >? 100) TooManySamples ;;
  store_data interval ;;
  sleep interval ;;
  Datum <- gpib.readline ;;
  st <- Multiple.loop fuel interval samples update_graph args
          {| Multiple.Time := []; Multiple.Data := [];
             Multiple.CurrentSample := 1; Multiple.Datum := Datum |} ;;
  gpib.write "Q7X" ;;
  ret (Multiple.Time st, Multiple.Data st).

(** The loop of [read_one]. *)
Module One.

Record state : Type := {
  Data : list float;
  CurrentSample : Z;
  Datum : string
}.

Definition poll (st : state) : M state :=
  gpib.write "B1X" ;;
  d <- gpib.readline ;;
  ret {| Data := Data st; CurrentSample := CurrentSample st; Datum := d |}.

Definition body (interval : Z) (st : state) : M state :=
  st' <-
    (if Py.contains (tag (CurrentSample st)) (Datum st) then
       x <- sample_value (Datum st) ;;
       sleep interval ;;
       ret {| Data := (Data st ++ [x])%list;
              CurrentSample := CurrentSample st + 1; Datum := Datum st |}
     else if Py.contains (tag (CurrentSample st - 1)) (Datum st) then
       sleep interval ;; ret st
     else ret st) ;;
  poll st'.

Fixpoint loop (fuel : nat) (interval samples : Z) (st : state) : M state :=
  if CurrentSample st <=? samples then
    match fuel with
    | O => out_of_fuel
    | S fuel' =>
        st' <- body interval st ;;
        loop fuel' interval samples st'
    end
  else ret st.

End One.

Definition read_one (interval : Z) (fuel : nat) : M float :=
  store_data interval ;;
  let samples := 2 in
  Datum <- gpib.readline ;;
  st <- One.loop fuel interval samples
          {| One.Data := []; One.CurrentSample := 1; One.Datum := Datum |} ;;
  gpib.write "Q7X" ;;
  last_item (One.Data st).

(** What [read] returns: the pair of [read_multiple] or the number of
    [read_one]. *)
Inductive reading : Type :=
| Series (times : list value) (values : list float)
| Scalar (x : float).

Definition read (interval samples : Z) (update_graph : callback)
    (args : list value) (fuel : nat) : M reading :=
  if samples >? 1 then
    figure <- load_name ["interval"; "samples"; "update_graph"; "args"]
                "figure" ;;
    r <- read_multiple interval samples update_graph [figure] fuel ;;
    ret (Series (fst r) (snd r))
  else
    x <- read_one interval fuel ;;
    ret (Scalar x).

Definition resistance_mode : M unit := gpib.write "F2X" ;; sleep 1.

Definition resolution_warning : string :=
  ("Warning: The voltage source in the Keithley 617 has a "
   ++ "maximum resolution of 50 mV.")%string.

Definition set_voltage_source (voltage : float) : M unit :=
  (if (1e-10 <? abs (voltage / 0.05 - Py.round (voltage / 0.05)))%float
   then print resolution_warning
   else ret tt) ;;
  gpib.write ("V" ++ Py.fmt_2f voltage ++ "X")%string.

Definition voltage_mode : M unit := gpib.write "F0X" ;; sleep 1.

(** Following the spec's words, for comparison with [sample_text]: the
    leading numeric field of a frame is the substring of the response line
    from its start up to the tag delimiter [,NNN]. *)
Definition spec_leading_field (n : Z) (Datum : string) : string :=
  Py.slice 0 (Py.find (tag n) Datum) Datum.

(** A channel on which nothing has happened yet. *)
Definition fresh (dev : nat -> string) : world :=
  {| device := dev; reads := 0; trace := [] |}.

(** The world after [k] more lines were read and the events [es] happened. *)
Definition extend (w : world) (k : nat) (es : list event) : world :=
  {| device := device w; reads := (reads w + k)%nat;
     trace := (trace w ++ es)%list |}.

(** Instruments used as concrete inputs: one that answers empty lines, and
    one that stores a sample per poll, repeating the first and slipping in
    an unreadable line. *)
Definition quiet_device : nat -> string := fun _ => "".

Definition lab_device (k : nat) : string :=
  match k with
  | 0%nat => "NDCV+1.0000E+00,001"
  | 1%nat => "NDCV+1.0000E+00,001"
  | 2%nat => "NDCV+2.5000E+00,002"
  | 3%nat => "?"
  | _ => "NDCV+3.0000E+00,003"
  end.

(** Among the lines the instrument answers from the [from]-th on, the
    first that contains [t] is the [pos]-th. *)
Definition first_tagged (dev : nat -> string) (t : string) (from pos : nat)
    : bool :=
  (from <=? pos)%nat
  && forallb (fun i => negb (Py.contains t (dev i))) (seq from (pos - from))
  && Py.contains t (dev pos).

(** The time that belongs to the sample of index [i], and the invariant of
    the loop of [read_multiple]: the times recorded so far are those of the
    indices below the expected one, in order. *)
Definition sample_time (interval i : Z) : value :=
  if interval =? 0 then VFloat (Py.float_of_int (i - 1) * 0.360)%float
  else VInt ((i - 1) * interval).

Definition times_ok (interval : Z) (st : Multiple.state) : Prop :=
  Multiple.CurrentSample st = Z.of_nat (List.length (Multiple.Time st)) + 1
  /\ forall k, (k < List.length (Multiple.Time st))%nat ->
       nth_error (Multiple.Time st) k
       = Some (sample_time interval (Z.of_nat k + 1)).

(** An instrument whose frames carry the tag right after a three-letter
    word, so that the first comma comes before offset 4. *)
Definition short_device : nat -> string := fun _ => "ERR,001".

(** The events of the polling turns: pauses, requests for a reading and the
    lines read. *)
Definition polling (e : event) : bool :=
  match e with
  | Sleep _ => true
  | ReadLine _ => true
  | Write cmd => String.eqb cmd "B1X"
  | _ => false
  end.

(** A callback that returns without touching the channel, as [do_nothing]
    does when it gets its three arguments. *)
Definition quiet (update_graph : callback) (args : list value) : Prop :=
  forall (t : value) (x : float) (w : world),
    update_graph t x args w = (Return tt, w).

(** The lines at the positions [js] are, in turn, the first line from
    [from] on tagged [i], the first line after it tagged [i + 1], and so
    on, and their sample texts parse to the values [xs]. *)
Fixpoint chain (dev : nat -> string) (i : Z) (from : nat) (js : list nat)
    (xs : list float) : Prop :=
  match js, xs with
  | [], [] => True
  | j :: js', x :: xs' =>
      first_tagged dev (tag i) from j = true
      /\ Py.float_of_string (sample_text (dev j)) = Some x
      /\ chain dev (i + 1) (S j) js' xs'
  | _, _ => False
  end.

(** The turns the loop takes to go through the positions [js] when it
    starts on line [from]: one per line examined. *)
Fixpoint span (from : nat) (js : list nat) : nat :=
  match js with
  | [] => 0
  | j :: js' => ((j - from) + S (span (S j) js'))%nat
  end.

(** The invariant of both loops on the values: as many as the expected
    index has advanced. *)
Definition values_ok (cs : Z) (data : list float) : Prop :=
  cs = Z.of_nat (List.length data) + 1.

(** A callback that may fail but leaves the channel alone, as [do_nothing]
    does with any number of arguments. *)
Definition silent (update_graph : callback) (args : list value) : Prop :=
  forall (t : value) (x : float) (w : world),
    snd (update_graph t x args w) = w.

(** The tag of [n] is a comma and three digits that spell [n]. *)
Definition tag_shape (n : Z) : bool :=
  match tag n with
  | String "," (String a (String b (String c EmptyString))) =>
      Py.is_digit a && Py.is_digit b && Py.is_digit c
      && (100 * Py.digit_val a + 10 * Py.digit_val b + Py.digit_val c =? n)
  | _ => false
  end.

(** ** Reasoning about runs *)

Lemma extend_nil (w : world) : extend w 0 [] = w.
Proof.
  destruct w as [dev n tr]; unfold extend; cbn.
  now rewrite Nat.add_0_r, app_nil_r.
Qed.

Lemma extend_extend (w : world) (j k : nat) (es fs : list event) :
  extend (extend w j es) k fs = extend w (j + k) (es ++ fs).
Proof.
  unfold extend; cbn. now rewrite Nat.add_assoc, app_assoc.
Qed.

Lemma emit_run (e : event) (w : world) :
  emit e w = (Return tt, extend w 0 [e]).
Proof.
  unfold emit, extend. now rewrite Nat.add_0_r.
Qed.

Lemma write_run (cmd : string) (w : world) :
  gpib.write cmd w = (Return tt, extend w 0 [Write cmd]).
Proof. apply emit_run. Qed.

Lemma readline_run (w : world) :
  gpib.readline w
  = (Return (device w (reads w)),
     extend w 1 [ReadLine (device w (reads w))]).
Proof.
  unfold gpib.readline, extend. now rewrite Nat.add_1_r.
Qed.

Lemma sleep_run (seconds : Z) (w : world) :
  0 <= seconds -> sleep seconds w = (Return tt, extend w 0 [Sleep seconds]).
Proof.
  intros H. unfold sleep.
  destruct (Z.ltb_spec seconds 0); [lia | apply emit_run].
Qed.

Lemma bind_return {A B : Type} (m : M A) (k : A -> M B) (w w' : world) (a : A) :
  m w = (Return a, w') -> bind m k w = k a w'.
Proof. intros H. unfold bind. now rewrite H. Qed.

Lemma bind_raise {A B : Type} (m : M A) (k : A -> M B) (w w' : world) (e : exn) :
  m w = (Raise e, w') -> bind m k w = (Raise e, w').
Proof. intros H. unfold bind. now rewrite H. Qed.

Lemma allowed_interval_spec (interval : Z) :
  allowed_interval interval = true
  <-> In interval [0; 1; 10; 60; 600; 3600].
Proof.
  unfold allowed_interval. rewrite existsb_exists. split.
  - intros (x & Hin & Heq). apply Z.eqb_eq in Heq. now subst.
  - intros Hin. exists interval. split; [assumption | apply Z.eqb_refl].
Qed.

Lemma allowed_interval_nonneg (interval : Z) :
  allowed_interval interval = true -> 0 <= interval.
Proof.
  rewrite allowed_interval_spec. cbn. intuition lia.
Qed.

(** An allowed interval has a storage command, which is sent. *)
Lemma store_data_allowed (interval : Z) (w : world) :
  allowed_interval interval = true ->
  exists cmd, store_data interval w = (Return tt, extend w 0 [Write cmd]).
Proof.
  rewrite allowed_interval_spec. cbn.
  intros [H | [H | [H | [H | [H | [H | []]]]]]]; subst interval;
    eexists; unfold store_data; cbn; apply write_run.
Qed.

(** Any other interval reaches the closing [else], before any command. *)
Lemma store_data_rejected (interval : Z) (w : world) :
  allowed_interval interval = false ->
  store_data interval w = (Raise InvalidSampleInterval, w).
Proof.
  unfold allowed_interval, store_data. cbn.
  destruct (interval =? 0), (interval =? 1), (interval =? 10),
    (interval =? 60), (interval =? 600), (interval =? 3600);
    cbn; try discriminate; reflexivity.
Qed.

(** ** Dispatch and validation *)

(** C1: for every call of [read] with [samples > 1] the multi-sample branch
    evaluates the name [figure], which no function local and no module-level
    binding provides, so the call raises [NameError] with the world
    untouched: nothing was validated and no command was sent.  In
    particular no such call returns a result. *)
Theorem read_many_raises_name_error
    (interval samples : Z) (update_graph : callback) (args : list value)
    (fuel : nat) (w : world) :
  samples > 1 ->
  read interval samples update_graph args fuel w
    = (Raise (NameError "figure"), w)
  /\ forall (r : reading) (w' : world),
       read interval samples update_graph args fuel w <> (Return r, w').
Proof.
  intros Hs.
  assert (E : read interval samples update_graph args fuel w
              = (Raise (NameError "figure"), w)).
  { unfold read. destruct (Z.gtb_spec samples 1) as [_ | Hle]; [| lia].
    apply bind_raise. reflexivity. }
  split; [exact E |].
  intros r w' H. rewrite E in H. discriminate H.
Qed.

Lemma read_many_raises_name_error_witness :
  read 10 3 do_nothing [] 5 (fresh quiet_device)
    = (Raise (NameError "figure"), fresh quiet_device)
  /\ forall (r : reading) (w' : world),
       read 10 3 do_nothing [] 5 (fresh quiet_device) <> (Return r, w').
Proof.
  apply (read_many_raises_name_error 10 3 do_nothing [] 5
           (fresh quiet_device)).
  lia.
Defined.

(** C2: the single-sample path does constrain the interval.  At interval 5,
    inside the range 0 to 99 that the comment above [read] allows for one
    sample, [read] raises the interval error of [read_one] and sends no
    command. *)
Theorem read_single_rejects_interval_5
    (update_graph : callback) (args : list value) (fuel : nat) (w : world) :
  read 5 1 update_graph args fuel w = (Raise InvalidSampleInterval, w).
Proof. reflexivity. Qed.

(** C3: at interval 5 and two samples [read] fails on the name [figure],
    not with the interval error; [read_multiple], which it never reaches,
    does raise the interval error before any command. *)
Theorem read_many_bad_interval
    (update_graph : callback) (args : list value) (fuel : nat) (w : world) :
  read 5 2 update_graph args fuel w = (Raise (NameError "figure"), w)
  /\ NameError "figure" <> InvalidInterval
  /\ read_multiple 5 2 update_graph args fuel w = (Raise InvalidInterval, w).
Proof.
  split; [reflexivity | split; [discriminate | reflexivity]].
Qed.

(** C4, as stated, fails: with more than 100 samples and an interval outside
    the allowed set the failure is the interval error, not the sample-count
    error. *)
Lemma too_many_samples_bad_interval :
  read_multiple 5 101 do_nothing [] 0 (fresh quiet_device)
    = (Raise InvalidInterval, fresh quiet_device)
  /\ fst (read_multiple 5 101 do_nothing [] 0 (fresh quiet_device))
     <> Raise TooManySamples.
Proof.
  split; [reflexivity | cbn; discriminate].
Qed.

(** C4, amended: for every sample count above 100, [read_multiple] fails
    before any command is sent; the failure is the sample-count error when
    the interval is one of the allowed ones and the interval error
    otherwise, because the interval is checked first. *)
Theorem read_multiple_too_many_samples
    (interval samples : Z) (update_graph : callback) (args : list value)
    (fuel : nat) (w : world) :
  samples > 100 ->
  read_multiple interval samples update_graph args fuel w
    = (Raise (if allowed_interval interval then TooManySamples
              else InvalidInterval), w).
Proof.
  intros Hs. unfold read_multiple.
  destruct (allowed_interval interval) eqn:Ha; cbn [negb].
  - rewrite (bind_return _ _ w w tt) by reflexivity.
    apply bind_raise. unfold raise_if.
    destruct (Z.gtb_spec samples 100); [reflexivity | lia].
  - apply bind_raise. reflexivity.
Qed.

Lemma read_multiple_too_many_samples_witness :
  read_multiple 10 101 do_nothing [] 0 (fresh quiet_device)
    = (Raise TooManySamples, fresh quiet_device).
Proof.
  apply (read_multiple_too_many_samples 10 101 do_nothing [] 0
           (fresh quiet_device)).
  lia.
Defined.

(** ** One turn of the polling loop *)

Lemma last_item_snoc {A : Type} (l : list A) (x : A) (w : world) :
  last_item (l ++ [x])%list w = (Return x, w).
Proof.
  unfold last_item. now rewrite rev_app_distr.
Qed.

Lemma multiple_poll_run (st : Multiple.state) (w : world) :
  Multiple.poll st w
  = (Return {| Multiple.Time := Multiple.Time st;
               Multiple.Data := Multiple.Data st;
               Multiple.CurrentSample := Multiple.CurrentSample st;
               Multiple.Datum := device w (reads w) |},
     extend w 1 [Write "B1X"; ReadLine (device w (reads w))]).
Proof.
  unfold Multiple.poll.
  rewrite (bind_return _ _ _ _ _ (write_run _ _)).
  rewrite (bind_return _ _ _ _ _ (readline_run _)).
  unfold ret. rewrite extend_extend. cbn.
  now rewrite Nat.add_0_r.
Qed.

Lemma one_poll_run (st : One.state) (w : world) :
  One.poll st w
  = (Return {| One.Data := One.Data st;
               One.CurrentSample := One.CurrentSample st;
               One.Datum := device w (reads w) |},
     extend w 1 [Write "B1X"; ReadLine (device w (reads w))]).
Proof.
  unfold One.poll.
  rewrite (bind_return _ _ _ _ _ (write_run _ _)).
  rewrite (bind_return _ _ _ _ _ (readline_run _)).
  unfold ret. rewrite extend_extend. cbn.
  now rewrite Nat.add_0_r.
Qed.

(** A frame with the expected tag is parsed and its value appended. *)
Lemma one_body_accept (interval : Z) (st : One.state) (x : float) (w : world) :
  0 <= interval ->
  Py.contains (tag (One.CurrentSample st)) (One.Datum st) = true ->
  Py.float_of_string (sample_text (One.Datum st)) = Some x ->
  One.body interval st w
  = (Return {| One.Data := (One.Data st ++ [x])%list;
               One.CurrentSample := One.CurrentSample st + 1;
               One.Datum := device w (reads w) |},
     extend w 1 [Sleep interval; Write "B1X"; ReadLine (device w (reads w))]).
Proof.
  intros Hi Hcur Hx. unfold One.body. rewrite Hcur.
  unfold sample_value. rewrite Hx.
  erewrite bind_return; cycle 1.
  { rewrite (bind_return _ _ w w x) by reflexivity.
    rewrite (bind_return _ _ _ _ _ (sleep_run _ _ Hi)). reflexivity. }
  rewrite one_poll_run, extend_extend. cbn.
  now rewrite Nat.add_0_r.
Qed.

(** C7: a turn of the loop whose frame carries the tag of the previous
    expected index and not that of the current one sleeps, asks for a
    reading and reads the next line; the times, the values and the expected
    index are unchanged and the callback is not invoked, whatever it is.
    This holds in the loop of [read_multiple] and in that of [read_one]. *)
Theorem stale_frame_repolls
    (interval : Z) (update_graph : callback) (args : list value)
    (Time : list value) (Data : list float) (CurrentSample : Z)
    (Datum : string) (w : world) :
  0 <= interval ->
  Py.contains (tag CurrentSample) Datum = false ->
  Py.contains (tag (CurrentSample - 1)) Datum = true ->
  Multiple.body interval update_graph args
    {| Multiple.Time := Time; Multiple.Data := Data;
       Multiple.CurrentSample := CurrentSample; Multiple.Datum := Datum |} w
  = (Return {| Multiple.Time := Time; Multiple.Data := Data;
               Multiple.CurrentSample := CurrentSample;
               Multiple.Datum := device w (reads w) |},
     extend w 1 [Sleep interval; Write "B1X"; ReadLine (device w (reads w))])
  /\
  One.body interval
    {| One.Data := Data; One.CurrentSample := CurrentSample;
       One.Datum := Datum |} w
  = (Return {| One.Data := Data; One.CurrentSample := CurrentSample;
               One.Datum := device w (reads w) |},
     extend w 1 [Sleep interval; Write "B1X"; ReadLine (device w (reads w))]).
Proof.
  intros Hi Hcur Hprev. split.
  - unfold Multiple.body. cbn [Multiple.CurrentSample Multiple.Datum].
    rewrite Hcur, Hprev.
    erewrite bind_return
      by (erewrite bind_return by (apply sleep_run; exact Hi); reflexivity).
    rewrite multiple_poll_run, extend_extend. cbn.
    now rewrite Nat.add_0_r.
  - unfold One.body. cbn [One.CurrentSample One.Datum].
    rewrite Hcur, Hprev.
    erewrite bind_return
      by (erewrite bind_return by (apply sleep_run; exact Hi); reflexivity).
    rewrite one_poll_run, extend_extend. cbn.
    now rewrite Nat.add_0_r.
Qed.

Lemma stale_frame_repolls_witness :
  Multiple.body 10 do_nothing [] 
    {| Multiple.Time := [VInt 0]; Multiple.Data := [1.5%float];
       Multiple.CurrentSample := 2;
       Multiple.Datum := "NDCV+1.5000E+00,001" |} (fresh quiet_device)
  = (Return {| Multiple.Time := [VInt 0]; Multiple.Data := [1.5%float];
               Multiple.CurrentSample := 2; Multiple.Datum := "" |},
     extend (fresh quiet_device) 1 [Sleep 10; Write "B1X"; ReadLine ""])
  /\
  One.body 10
    {| One.Data := [1.5%float]; One.CurrentSample := 2;
       One.Datum := "NDCV+1.5000E+00,001" |} (fresh quiet_device)
  = (Return {| One.Data := [1.5%float]; One.CurrentSample := 2;
               One.Datum := "" |},
     extend (fresh quiet_device) 1 [Sleep 10; Write "B1X"; ReadLine ""]).
Proof.
  apply (stale_frame_repolls 10 do_nothing [] [VInt 0] [1.5%float] 2
           "NDCV+1.5000E+00,001" (fresh quiet_device)).
  - lia.
  - reflexivity.
  - reflexivity.
Defined.

(** C8, as stated, fails: on the frame [NDCV+1.2345E-09,001], accepted for
    index 1, the substring from the start of the line up to the tag is not
    a float literal, yet the loop appends the value 1.2345e-09. *)
Lemma leading_field_not_parsed :
  Py.contains (tag 1) "NDCV+1.2345E-09,001" = true
  /\ spec_leading_field 1 "NDCV+1.2345E-09,001" = "NDCV+1.2345E-09"
  /\ Py.float_of_string (spec_leading_field 1 "NDCV+1.2345E-09,001") = None
  /\ fst (One.body 0
            {| One.Data := []; One.CurrentSample := 1;
               One.Datum := "NDCV+1.2345E-09,001" |} (fresh quiet_device))
     = Return {| One.Data := [1.2345e-09%float]; One.CurrentSample := 2;
                 One.Datum := "" |}.
Proof.
  repeat split; vm_compute; reflexivity.
Qed.

(** C8, amended: for every frame accepted as matching the expected index,
    the value appended is the float parse of the characters of the line
    from offset 4, past the four status characters, up to its first comma.
    In [read_multiple] the time is appended with it and the callback
    receives both. *)
Theorem accepted_frame_value
    (interval : Z) (update_graph : callback) (args : list value)
    (Time : list value) (Data : list float) (CurrentSample : Z)
    (Datum : string) (x : float) (w w1 : world) :
  0 <= interval ->
  Py.contains (tag CurrentSample) Datum = true ->
  Py.float_of_string (Py.slice 4 (Py.find "," Datum) Datum) = Some x ->
  update_graph
    (if interval =? 0
     then VFloat (Py.float_of_int (CurrentSample - 1) * 0.360)%float
     else VInt ((CurrentSample - 1) * interval)) x args w
  = (Return tt, w1) ->
  Multiple.body interval update_graph args
    {| Multiple.Time := Time; Multiple.Data := Data;
       Multiple.CurrentSample := CurrentSample; Multiple.Datum := Datum |} w
  = (Return
       {| Multiple.Time :=
            (Time ++ [if interval =? 0
                      then VFloat (Py.float_of_int (CurrentSample - 1)
                                   * 0.360)%float
                      else VInt ((CurrentSample - 1) * interval)])%list;
          Multiple.Data := (Data ++ [x])%list;
          Multiple.CurrentSample := CurrentSample + 1;
          Multiple.Datum := device w1 (reads w1) |},
     extend w1 1 [Sleep interval; Write "B1X"; ReadLine (device w1 (reads w1))])
  /\
  One.body interval
    {| One.Data := Data; One.CurrentSample := CurrentSample;
       One.Datum := Datum |} w
  = (Return {| One.Data := (Data ++ [x])%list;
               One.CurrentSample := CurrentSample + 1;
               One.Datum := device w (reads w) |},
     extend w 1 [Sleep interval; Write "B1X"; ReadLine (device w (reads w))]).
Proof.
  intros Hi Hcur Hx Hcb. split.
  - unfold Multiple.body. cbn [Multiple.CurrentSample Multiple.Datum
      Multiple.Time Multiple.Data].
    rewrite Hcur. unfold sample_value, sample_text. rewrite Hx.
    destruct (interval =? 0).
    all: erewrite bind_return; cycle 1.
    1, 3: rewrite (bind_return _ _ w w x) by reflexivity;
      rewrite (bind_return _ _ _ _ _ (last_item_snoc _ _ _));
      rewrite (bind_return _ _ _ _ _ (last_item_snoc _ _ _));
      rewrite (bind_return _ _ _ _ _ Hcb);
      rewrite (bind_return _ _ _ _ _ (sleep_run _ _ Hi)); reflexivity.
    all: rewrite multiple_poll_run, extend_extend; cbn;
      now rewrite Nat.add_0_r.
  - apply (one_body_accept interval
             {| One.Data := Data; One.CurrentSample := CurrentSample;
                One.Datum := Datum |} x w Hi Hcur Hx).
Qed.

Lemma accepted_frame_value_witness :
  Multiple.body 10 do_nothing [VNone]
    {| Multiple.Time := [VInt 0]; Multiple.Data := [1.5%float];
       Multiple.CurrentSample := 2;
       Multiple.Datum := "NDCV+2.5000E+00,002" |} (fresh quiet_device)
  = (Return {| Multiple.Time := [VInt 0; VInt 10];
               Multiple.Data := [1.5%float; 2.5%float];
               Multiple.CurrentSample := 3; Multiple.Datum := "" |},
     extend (fresh quiet_device) 1 [Sleep 10; Write "B1X"; ReadLine ""])
  /\
  One.body 10
    {| One.Data := [1.5%float]; One.CurrentSample := 2;
       One.Datum := "NDCV+2.5000E+00,002" |} (fresh quiet_device)
  = (Return {| One.Data := [1.5%float; 2.5%float]; One.CurrentSample := 3;
               One.Datum := "" |},
     extend (fresh quiet_device) 1 [Sleep 10; Write "B1X"; ReadLine ""]).
Proof.
  apply (accepted_frame_value 10 do_nothing [VNone] [VInt 0] [1.5%float] 2
           "NDCV+2.5000E+00,002" 2.5%float
           (fresh quiet_device) (fresh quiet_device)).
  - lia.
  - reflexivity.
  - vm_compute. reflexivity.
  - reflexivity.
Defined.

(** ** Voltage source and connection *)

(** C9: [set_voltage_source] always sends the set-voltage command with the
    voltage printed to two decimal places, and prints the resolution warning
    before it exactly when [|voltage/0.05 - round(voltage/0.05)|] exceeds
    1e-10.  0.025 is warned about and 0.10 is not; both are sent. *)
Theorem set_voltage_source_run (voltage : float) (w : world) :
  set_voltage_source voltage w
  = (Return tt,
     extend w 0
       ((if (1e-10 <? abs (voltage / 0.05 - Py.round (voltage / 0.05)))%float
         then [Print resolution_warning] else [])
        ++ [Write ("V" ++ Py.fmt_2f voltage ++ "X")%string]))
  /\ set_voltage_source 0.025 w
     = (Return tt, extend w 0 [Print resolution_warning; Write "V0.03X"])
  /\ set_voltage_source 0.10 w
     = (Return tt, extend w 0 [Write "V0.10X"]).
Proof.
  assert (G : forall v : float,
    set_voltage_source v w
    = (Return tt,
       extend w 0
         ((if (1e-10 <? abs (v / 0.05 - Py.round (v / 0.05)))%float
           then [Print resolution_warning] else [])
          ++ [Write ("V" ++ Py.fmt_2f v ++ "X")%string]))).
  { intros v. unfold set_voltage_source.
    destruct (1e-10 <? abs (v / 0.05 - Py.round (v / 0.05)))%float.
    - unfold print. rewrite (bind_return _ _ _ _ _ (emit_run _ _)).
      rewrite write_run, extend_extend. reflexivity.
    - rewrite (bind_return _ _ w w tt) by reflexivity.
      apply write_run. }
  split; [apply G | split].
  - rewrite G. vm_compute. reflexivity.
  - rewrite G. vm_compute. reflexivity.
Qed.

(** C10: [open_connection] opens the channel, addresses and resets the
    instrument, sends the zero-check command twice and reads one line; it
    raises the not-responding error exactly when that line does not contain
    [DC], and returns otherwise. *)
Theorem open_connection_run (w : world) :
  open_connection w
  = (if Py.contains "DC" (device w (reads w)) then Return tt
     else Raise DeviceNotResponding,
     extend w 1
       [OpenConnection; Write "++addr 27"; ClearSelectedDevice;
        Write "C0X"; Write "C0X"; ReadLine (device w (reads w))]).
Proof.
  unfold open_connection, gpib.open_connection, gpib.clear_selected_device.
  rewrite (bind_return _ _ _ _ _ (emit_run _ _)).
  rewrite (bind_return _ _ _ _ _ (write_run _ _)).
  rewrite (bind_return _ _ _ _ _ (emit_run _ _)).
  rewrite (bind_return _ _ _ _ _ (write_run _ _)).
  rewrite (bind_return _ _ _ _ _ (write_run _ _)).
  rewrite (bind_return _ _ _ _ _ (readline_run _)).
  rewrite !extend_extend. cbn. rewrite Nat.add_0_r.
  unfold raise_if.
  destruct (Py.contains "DC" (device w (reads w))); reflexivity.
Qed.

(** ** The polling loop of [read_one] *)

Lemma first_tagged_spec (dev : nat -> string) (t : string) (from pos : nat) :
  first_tagged dev t from pos = true ->
  (from <= pos)%nat
  /\ Py.contains t (dev pos) = true
  /\ forall i, (from <= i < pos)%nat -> Py.contains t (dev i) = false.
Proof.
  unfold first_tagged. rewrite !andb_true_iff, forallb_forall.
  intros [[Hle Hall] Hpos]. apply Nat.leb_le in Hle.
  repeat split; try assumption.
  intros i Hi. apply negb_true_iff, Hall, in_seq. lia.
Qed.

(** A frame without the expected tag is passed over: the next line is read
    and nothing else changes. *)
Lemma one_body_skip (interval : Z) (st : One.state) (w : world) :
  0 <= interval ->
  Py.contains (tag (One.CurrentSample st)) (One.Datum st) = false ->
  exists es,
    One.body interval st w
    = (Return {| One.Data := One.Data st;
                 One.CurrentSample := One.CurrentSample st;
                 One.Datum := device w (reads w) |},
       extend w 1 es).
Proof.
  intros Hi Hcur. unfold One.body. rewrite Hcur.
  destruct (Py.contains (tag (One.CurrentSample st - 1)) (One.Datum st)).
  - eexists.
    erewrite bind_return
      by (erewrite bind_return by (apply sleep_run; exact Hi); reflexivity).
    rewrite one_poll_run, extend_extend. cbn.
    now rewrite Nat.add_0_r.
  - eexists.
    rewrite (bind_return _ _ w w st) by reflexivity.
    apply one_poll_run.
Qed.

(** The loop passes over [n] frames without the expected tag, one turn
    each. *)
Lemma one_loop_skip (interval samples : Z) (n : nat) :
  0 <= interval ->
  forall (fuel : nat) (st : One.state) (w : world) (p : nat),
    reads w = S p ->
    One.Datum st = device w p ->
    One.CurrentSample st <= samples ->
    (forall i, (p <= i < p + n)%nat ->
       Py.contains (tag (One.CurrentSample st)) (device w i) = false) ->
    exists es,
      One.loop (n + fuel) interval samples st w
      = One.loop fuel interval samples
          {| One.Data := One.Data st;
             One.CurrentSample := One.CurrentSample st;
             One.Datum := device w (p + n) |}
          (extend w n es).
Proof.
  intros Hi. induction n as [| n IH]; intros fuel st w p Hr Hd Hc Hno.
  - exists []. rewrite extend_nil, Nat.add_0_r, <- Hd.
    now destruct st.
  - cbn [Nat.add One.loop].
    destruct (Z.leb_spec (One.CurrentSample st) samples) as [_ | Hgt]; [| lia].
    destruct (one_body_skip interval st w Hi) as [es1 Hb].
    { rewrite Hd. apply Hno. lia. }
    rewrite (bind_return _ _ _ _ _ Hb).
    destruct (IH fuel
                {| One.Data := One.Data st;
                   One.CurrentSample := One.CurrentSample st;
                   One.Datum := device w (reads w) |}
                (extend w 1 es1) (S p)) as [es2 Hl].
    + cbn. rewrite Hr. lia.
    + cbn. now rewrite Hr.
    + exact Hc.
    + cbn. intros i Hi'. apply Hno. lia.
    + exists (es1 ++ es2)%list. rewrite Hl. cbn [One.Data One.CurrentSample].
      rewrite extend_extend. cbn [device extend].
      now rewrite Nat.add_succ_r.
Qed.

(** One turn of the loop on a frame with the expected tag. *)
Lemma one_loop_accept (interval samples : Z) (fuel : nat) (st : One.state)
    (x : float) (w : world) :
  0 <= interval ->
  One.CurrentSample st <= samples ->
  Py.contains (tag (One.CurrentSample st)) (One.Datum st) = true ->
  Py.float_of_string (sample_text (One.Datum st)) = Some x ->
  One.loop (S fuel) interval samples st w
  = One.loop fuel interval samples
      {| One.Data := (One.Data st ++ [x])%list;
         One.CurrentSample := One.CurrentSample st + 1;
         One.Datum := device w (reads w) |}
      (extend w 1 [Sleep interval; Write "B1X"; ReadLine (device w (reads w))]).
Proof.
  intros Hi Hc Hcur Hx. cbn [One.loop].
  destruct (Z.leb_spec (One.CurrentSample st) samples) as [_ | Hgt]; [| lia].
  now rewrite (bind_return _ _ _ _ _ (one_body_accept _ _ _ _ Hi Hcur Hx)).
Qed.

Lemma one_loop_done (interval samples : Z) (fuel : nat) (st : One.state)
    (w : world) :
  samples < One.CurrentSample st ->
  One.loop fuel interval samples st w = (Return st, w).
Proof.
  intros H.
  destruct fuel; cbn [One.loop];
    (destruct (Z.leb_spec (One.CurrentSample st) samples); [lia | reflexivity]).
Qed.

(** The loop waits for the first frame with the expected tag, takes its
    value and moves to the next index. *)
Lemma one_loop_seek (interval samples : Z) (fuel : nat) (st : One.state)
    (x : float) (w : world) (p j : nat) :
  0 <= interval ->
  reads w = S p ->
  One.Datum st = device w p ->
  One.CurrentSample st <= samples ->
  first_tagged (device w) (tag (One.CurrentSample st)) p j = true ->
  Py.float_of_string (sample_text (device w j)) = Some x ->
  exists es,
    One.loop ((j - p) + S fuel) interval samples st w
    = One.loop fuel interval samples
        {| One.Data := (One.Data st ++ [x])%list;
           One.CurrentSample := One.CurrentSample st + 1;
           One.Datum := device w (S j) |}
        (extend w (S (j - p)) es).
Proof.
  intros Hi Hr Hd Hc Hft Hx.
  apply first_tagged_spec in Hft. destruct Hft as (Hle & Hj & Hno).
  destruct (one_loop_skip interval samples (j - p) Hi (S fuel) st w p
              Hr Hd Hc) as [es1 Hs].
  { intros i Hi'. apply Hno. lia. }
  replace (p + (j - p))%nat with j in Hs by lia.
  rewrite Hs.
  rewrite (one_loop_accept interval samples fuel _ x); try assumption.
  - eexists. cbn [One.Data One.CurrentSample].
    rewrite extend_extend. cbn [device reads extend].
    rewrite Hr. replace (S p + (j - p))%nat with (S j) by lia.
    replace (j - p + 1)%nat with (S (j - p)) by lia.
    reflexivity.
Qed.

Lemma read_one_run (interval : Z) (fuel : nat) (w : world) (j1 j2 : nat)
    (x1 x2 : float) :
  allowed_interval interval = true ->
  first_tagged (device w) (tag 1) (reads w) j1 = true ->
  Py.float_of_string (sample_text (device w j1)) = Some x1 ->
  first_tagged (device w) (tag 2) (S j1) j2 = true ->
  Py.float_of_string (sample_text (device w j2)) = Some x2 ->
  (j2 - reads w < fuel)%nat ->
  exists es,
    read_one interval fuel w
    = (Return x2, extend w (j2 + 2 - reads w) (es ++ [Write "Q7X"])).
Proof.
  intros Ha H1 Hx1 H2 Hx2 Hfuel.
  pose proof (allowed_interval_nonneg _ Ha) as Hi.
  destruct (first_tagged_spec _ _ _ _ H1) as (Hle1 & _ & _).
  destruct (first_tagged_spec _ _ _ _ H2) as (Hle2 & _ & _).
  destruct (store_data_allowed interval w Ha) as [cmd Hst].
  unfold read_one.
  rewrite (bind_return _ _ _ _ _ Hst).
  rewrite (bind_return _ _ _ _ _ (readline_run _)).
  rewrite extend_extend. cbn [device reads extend Nat.add].
  rewrite Nat.add_0_r.
  set (w2 := extend w 1 _).
  assert (Hr2 : reads w2 = S (reads w)) by (cbn; lia).
  replace fuel
    with ((j1 - reads w) + S ((j2 - S j1) + S (fuel - (j2 - reads w) - 1)))%nat
    by lia.
  destruct (one_loop_seek interval 2 ((j2 - S j1) + S (fuel - (j2 - reads w) - 1))
              {| One.Data := []; One.CurrentSample := 1;
                 One.Datum := device w (reads w) |}
              x1 w2 (reads w) j1 Hi Hr2 eq_refl) as [es1 Hl1];
    [cbn; lia | exact H1 | exact Hx1 |].
  cbn [One.Data One.CurrentSample] in Hl1.
  destruct (one_loop_seek interval 2 (fuel - (j2 - reads w) - 1)
              {| One.Data := ([] ++ [x1])%list; One.CurrentSample := 1 + 1;
                 One.Datum := device w2 (S j1) |}
              x2 (extend w2 (S (j1 - reads w)) es1) (S j1) j2 Hi) as [es2 Hl2];
    [cbn; lia | reflexivity | cbn; lia | exact H2 | exact Hx2 |].
  cbn [One.Data One.CurrentSample] in Hl2.
  erewrite bind_return; cycle 1.
  { rewrite Hl1, Hl2. apply one_loop_done. cbn. lia. }
  rewrite (bind_return _ _ _ _ _ (write_run _ _)).
  cbn [One.Data]. rewrite last_item_snoc.
  exists ([Write cmd; ReadLine (device w (reads w))] ++ es1 ++ es2)%list.
  unfold w2. rewrite !extend_extend. do 2 f_equal.
  - lia.
  - now rewrite <- !app_assoc.
Qed.

(** C5: with one sample requested and an allowed interval, [read] runs the
    loop of [read_one] up to index 2: it waits for the first frame tagged
    [,001], parses it and drops its value, waits for the next frame tagged
    [,002] and returns that frame's value alone, after turning the storage
    off.  Fuel for one turn per line read suffices. *)
Theorem read_single_returns_second_sample
    (interval : Z) (update_graph : callback) (args : list value)
    (fuel : nat) (w : world) (j1 j2 : nat) (x1 x2 : float) :
  allowed_interval interval = true ->
  first_tagged (device w) (tag 1) (reads w) j1 = true ->
  Py.float_of_string (sample_text (device w j1)) = Some x1 ->
  first_tagged (device w) (tag 2) (S j1) j2 = true ->
  Py.float_of_string (sample_text (device w j2)) = Some x2 ->
  (j2 - reads w < fuel)%nat ->
  exists es,
    read interval 1 update_graph args fuel w
    = (Return (Scalar x2),
       extend w (j2 + 2 - reads w) (es ++ [Write "Q7X"])).
Proof.
  intros Ha H1 Hx1 H2 Hx2 Hfuel.
  destruct (read_one_run interval fuel w j1 j2 x1 x2 Ha H1 Hx1 H2 Hx2 Hfuel)
    as [es Hrun].
  exists es. unfold read. change (1 >? 1) with false. cbv iota.
  now rewrite (bind_return _ _ _ _ _ Hrun).
Qed.

Lemma read_single_returns_second_sample_witness :
  exists es,
    read 10 1 do_nothing [] 3 (fresh lab_device)
    = (Return (Scalar 2.5%float),
       extend (fresh lab_device) (2 + 2 - 0) (es ++ [Write "Q7X"])).
Proof.
  apply (read_single_returns_second_sample 10 do_nothing [] 3
           (fresh lab_device) 0 2 1%float 2.5%float).
  - reflexivity.
  - reflexivity.
  - vm_compute. reflexivity.
  - reflexivity.
  - vm_compute. reflexivity.
  - cbn. lia.
Defined.

(** ** The polling loop of [read_multiple] *)

Lemma bind_inv {A B : Type} (m : M A) (k : A -> M B) (w w' : world) (b : B) :
  bind m k w = (Return b, w') ->
  exists a w1, m w = (Return a, w1) /\ k a w1 = (Return b, w').
Proof.
  unfold bind. destruct (m w) as [[a | e |] w1]; intros H;
    [eauto | discriminate H | discriminate H].
Qed.

Ltac bind_inv H :=
  let a := fresh "a" in
  let w1 := fresh "w" in
  let H1 := fresh "Hm" in
  apply bind_inv in H; destruct H as (a & w1 & H1 & H).

Lemma times_ok_snoc (interval : Z) (times : list value) (data data' : list float)
    (cs : Z) (d d' : string) :
  times_ok interval
    {| Multiple.Time := times; Multiple.Data := data;
       Multiple.CurrentSample := cs; Multiple.Datum := d |} ->
  times_ok interval
    {| Multiple.Time := (times ++ [sample_time interval cs])%list;
       Multiple.Data := data'; Multiple.CurrentSample := cs + 1;
       Multiple.Datum := d' |}.
Proof.
  unfold times_ok. cbn. intros [Hc Hn]. rewrite length_app. cbn. split.
  - lia.
  - intros k Hk.
    destruct (Nat.lt_ge_cases k (List.length times)) as [Hlt | Hge].
    + rewrite nth_error_app1 by assumption. now apply Hn.
    + assert (k = List.length times) by lia. subst k.
      rewrite nth_error_app2, Nat.sub_diag by lia. cbn.
      now rewrite Hc.
Qed.

(** A turn of the loop keeps the invariant and moves the expected index by
    at most one. *)
Lemma multiple_body_times (interval : Z) (update_graph : callback)
    (args : list value) (st st' : Multiple.state) (w w' : world) :
  Multiple.body interval update_graph args st w = (Return st', w') ->
  times_ok interval st ->
  times_ok interval st'
  /\ Multiple.CurrentSample st <= Multiple.CurrentSample st'
     <= Multiple.CurrentSample st + 1.
Proof.
  intros H Hok. unfold Multiple.body in H.
  bind_inv H. rewrite multiple_poll_run in H.
  injection H as <- _. cbn [Multiple.CurrentSample].
  enough (times_ok interval a
          /\ Multiple.CurrentSample st <= Multiple.CurrentSample a
             <= Multiple.CurrentSample st + 1) as [Ha Hc].
  { split; [| exact Hc]. destruct a. exact Ha. }
  clear w'.
  destruct (Py.contains (tag (Multiple.CurrentSample st)) (Multiple.Datum st)).
  - bind_inv Hm. bind_inv Hm. bind_inv Hm. bind_inv Hm. bind_inv Hm.
    injection Hm as <- _. cbn [Multiple.CurrentSample]. split; [| lia].
    destruct st as [times data cs d]. cbn [Multiple.Time Multiple.Data
      Multiple.CurrentSample Multiple.Datum] in *.
    pose proof (times_ok_snoc interval times data (data ++ [a0])%list cs d d Hok)
      as Hs.
    unfold sample_time in Hs. destruct (interval =? 0); exact Hs.
  - destruct (Py.contains (tag (Multiple.CurrentSample st - 1))
                (Multiple.Datum st)).
    + bind_inv Hm. injection Hm as <- _. split; [assumption | lia].
    + injection Hm as <- _. split; [assumption | lia].
Qed.

(** When the loop ends, the expected index is one past the number of samples
    asked for, and the invariant holds. *)
Lemma multiple_loop_times (interval samples : Z) (update_graph : callback)
    (args : list value) (fuel : nat) :
  forall (st st' : Multiple.state) (w w' : world),
    Multiple.loop fuel interval samples update_graph args st w
      = (Return st', w') ->
    times_ok interval st ->
    Multiple.CurrentSample st <= samples + 1 ->
    times_ok interval st' /\ Multiple.CurrentSample st' = samples + 1.
Proof.
  induction fuel as [| fuel IH]; intros st st' w w' H Hok Hc;
    cbn [Multiple.loop] in H;
    destruct (Z.leb_spec (Multiple.CurrentSample st) samples) as [Hle | Hgt].
  - discriminate H.
  - injection H as <- _. split; [assumption | lia].
  - bind_inv H.
    destruct (multiple_body_times _ _ _ _ _ _ _ Hm Hok) as [Hok' Hc'].
    apply (IH _ _ _ _ H Hok'). lia.
  - injection H as <- _. split; [assumption | lia].
Qed.

(** C6: when [read_multiple] returns for [n > 1] samples, it returns [n]
    times, and the [i]-th of them, for [i] from 1 to [n], is
    [(i-1) * 0.360] if the interval is 0 and [(i-1) * interval]
    otherwise. *)
Theorem read_multiple_times
    (interval n : Z) (update_graph : callback) (args : list value)
    (fuel : nat) (w w' : world) (times : list value) (values : list float) :
  n > 1 ->
  read_multiple interval n update_graph args fuel w
    = (Return (times, values), w') ->
  List.length times = Z.to_nat n
  /\ forall i, 1 <= i <= n ->
       nth_error times (Z.to_nat (i - 1))
       = Some (if interval =? 0
               then VFloat (Py.float_of_int (i - 1) * 0.360)%float
               else VInt ((i - 1) * interval)).
Proof.
  intros Hn H. unfold read_multiple in H.
  bind_inv H. bind_inv H. bind_inv H. bind_inv H. bind_inv H. bind_inv H.
  bind_inv H. injection H as <- _ _.
  apply multiple_loop_times in Hm4 as [[Hc Hnth] Hlast].
  - cbn [Multiple.CurrentSample Multiple.Time] in *.
    assert (Hlen : List.length (Multiple.Time a4) = Z.to_nat n) by lia.
    split; [exact Hlen |].
    intros i Hi. rewrite Hnth by lia. unfold sample_time.
    now replace (Z.of_nat (Z.to_nat (i - 1)) + 1 - 1) with (i - 1) by lia.
  - split; [reflexivity | cbn; intros k Hk; lia].
  - cbn. lia.
Qed.

Lemma read_multiple_times_witness :
  List.length [VInt 0; VInt 10; VInt 20] = Z.to_nat 3
  /\ forall i, 1 <= i <= 3 ->
       nth_error [VInt 0; VInt 10; VInt 20] (Z.to_nat (i - 1))
       = Some (if 10 =? 0
               then VFloat (Py.float_of_int (i - 1) * 0.360)%float
               else VInt ((i - 1) * 10)).
Proof.
  apply (read_multiple_times 10 3 do_nothing [VNone] 5 (fresh lab_device)
           (extend (fresh lab_device) 6
              [Write "B1Q2G2X"; Sleep 10; ReadLine "NDCV+1.0000E+00,001";
               Sleep 10; Write "B1X"; ReadLine "NDCV+1.0000E+00,001";
               Sleep 10; Write "B1X"; ReadLine "NDCV+2.5000E+00,002";
               Sleep 10; Write "B1X"; ReadLine "?";
               Write "B1X"; ReadLine "NDCV+3.0000E+00,003";
               Sleep 10; Write "B1X"; ReadLine "NDCV+3.0000E+00,003";
               Write "Q7X"])
           [VInt 0; VInt 10; VInt 20] [1%float; 2.5%float; 3%float]).
  - lia.
  - vm_compute. reflexivity.
Defined.

(** ** Further properties: validation *)

(** X1: [read_multiple] refuses every interval outside 0, 1, 10, 60, 600 and
    3600 with the interval error, whatever the sample count and the
    callback, before any command is sent or line read. *)
Theorem read_multiple_rejects_interval
    (interval samples : Z) (update_graph : callback) (args : list value)
    (fuel : nat) (w : world) :
  allowed_interval interval = false ->
  read_multiple interval samples update_graph args fuel w
    = (Raise InvalidInterval, w).
Proof.
  intros Ha. unfold read_multiple. apply bind_raise.
  now rewrite Ha.
Qed.

Lemma read_multiple_rejects_interval_witness :
  read_multiple 99 2 do_nothing [VNone] 5 (fresh lab_device)
    = (Raise InvalidInterval, fresh lab_device).
Proof.
  apply (read_multiple_rejects_interval 99 2 do_nothing [VNone] 5
           (fresh lab_device)).
  reflexivity.
Defined.

(** X2: with a sample count of 1 or less (0 and negative counts included)
    [read] takes the single-sample path, and there every interval outside
    0, 1, 10, 60, 600 and 3600 raises the error of the storage-command
    chain before any command is sent. *)
Theorem read_single_rejects_interval
    (interval samples : Z) (update_graph : callback) (args : list value)
    (fuel : nat) (w : world) :
  samples <= 1 ->
  allowed_interval interval = false ->
  read interval samples update_graph args fuel w
    = (Raise InvalidSampleInterval, w).
Proof.
  intros Hs Ha. unfold read.
  destruct (Z.gtb_spec samples 1) as [Hgt | _]; [lia |].
  apply bind_raise. unfold read_one. apply bind_raise.
  now apply store_data_rejected.
Qed.

Lemma read_single_rejects_interval_witness :
  read 99 0 do_nothing [] 5 (fresh lab_device)
    = (Raise InvalidSampleInterval, fresh lab_device).
Proof.
  apply (read_single_rejects_interval 99 0 do_nothing [] 5 (fresh lab_device)).
  - lia.
  - reflexivity.
Defined.

(** ** Further properties: the callback of [read_multiple] *)

Lemma do_nothing_arity (t : value) (x : float) (args : list value) (w : world) :
  List.length args <> 1%nat ->
  do_nothing t x args w
    = (Raise (TypeError "do_nothing() takes exactly 3 arguments"), w).
Proof.
  intros H. destruct args as [| a [| b l]]; [reflexivity | | reflexivity].
  now contradiction H.
Qed.

(** With [do_nothing] short of its third argument, a turn that returns has
    not accepted a sample. *)
Lemma multiple_body_arity (interval : Z) (args : list value)
    (st st' : Multiple.state) (w w' : world) :
  List.length args <> 1%nat ->
  Multiple.body interval do_nothing args st w = (Return st', w') ->
  Multiple.CurrentSample st' = Multiple.CurrentSample st.
Proof.
  intros Hargs H. unfold Multiple.body in H.
  bind_inv H. rewrite multiple_poll_run in H. injection H as <- _.
  cbn [Multiple.CurrentSample].
  destruct (Py.contains (tag (Multiple.CurrentSample st)) (Multiple.Datum st)).
  - bind_inv Hm. bind_inv Hm. bind_inv Hm.
    rewrite (bind_raise _ _ _ _ _ (do_nothing_arity _ _ _ _ Hargs)) in Hm.
    discriminate Hm.
  - destruct (Py.contains (tag (Multiple.CurrentSample st - 1))
                (Multiple.Datum st)).
    + bind_inv Hm. now injection Hm as <- _.
    + now injection Hm as <- _.
Qed.

Lemma multiple_loop_arity (interval samples : Z) (args : list value)
    (fuel : nat) :
  List.length args <> 1%nat ->
  forall (st st' : Multiple.state) (w w' : world),
    Multiple.loop fuel interval samples do_nothing args st w
      = (Return st', w') ->
    samples < Multiple.CurrentSample st.
Proof.
  intros Hargs. induction fuel as [| fuel IH]; intros st st' w w' H;
    cbn [Multiple.loop] in H;
    destruct (Z.leb_spec (Multiple.CurrentSample st) samples) as [Hle | Hgt];
    try assumption.
  - discriminate H.
  - bind_inv H.
    pose proof (multiple_body_arity _ _ _ _ _ _ Hargs Hm) as Hc.
    apply IH in H. lia.
Qed.

(** X3: [read_multiple] with its default callback [do_nothing] and any
    number of extra arguments other than one never returns a result when at
    least one sample is asked for: [do_nothing] takes exactly three
    arguments, so the call made on the first accepted sample fails. *)
Theorem read_multiple_default_callback_never_returns
    (interval samples : Z) (args : list value) (fuel : nat) (w w' : world)
    (r : list value * list float) :
  1 <= samples ->
  List.length args <> 1%nat ->
  read_multiple interval samples do_nothing args fuel w <> (Return r, w').
Proof.
  intros Hs Hargs H. unfold read_multiple in H.
  bind_inv H. bind_inv H. bind_inv H. bind_inv H. bind_inv H. bind_inv H.
  apply (multiple_loop_arity _ _ _ _ Hargs) in Hm4.
  cbn in Hm4. lia.
Qed.

Lemma read_multiple_default_callback_never_returns_witness :
  read_multiple 10 3 do_nothing [] 9 (fresh lab_device)
  <> (Return ([VInt 0; VInt 10; VInt 20], [1%float; 2.5%float; 3%float]),
      fresh lab_device).
Proof.
  apply (read_multiple_default_callback_never_returns 10 3 [] 9
           (fresh lab_device) (fresh lab_device)).
  - lia.
  - cbn. lia.
Defined.

(** ** Further properties: what a returned acquisition guarantees *)

(** X4: whenever [read_multiple] returns, whatever the callback did, the
    last thing that happened on the channel is the command that turns the
    data storage off. *)
Theorem read_multiple_returns_storage_off
    (interval samples : Z) (update_graph : callback) (args : list value)
    (fuel : nat) (w w' : world) (r : list value * list float) :
  read_multiple interval samples update_graph args fuel w = (Return r, w') ->
  exists es, trace w' = (es ++ [Write "Q7X"])%list.
Proof.
  intros H. unfold read_multiple in H.
  bind_inv H. bind_inv H. bind_inv H. bind_inv H. bind_inv H. bind_inv H.
  bind_inv H. injection H as _ <-.
  rewrite write_run in Hm5. injection Hm5 as _ <-.
  now exists (trace w5).
Qed.

Lemma read_multiple_returns_storage_off_witness :
  exists es,
    trace (extend (fresh lab_device) 6
             [Write "B1Q2G2X"; Sleep 10; ReadLine "NDCV+1.0000E+00,001";
              Sleep 10; Write "B1X"; ReadLine "NDCV+1.0000E+00,001";
              Sleep 10; Write "B1X"; ReadLine "NDCV+2.5000E+00,002";
              Sleep 10; Write "B1X"; ReadLine "?";
              Write "B1X"; ReadLine "NDCV+3.0000E+00,003";
              Sleep 10; Write "B1X"; ReadLine "NDCV+3.0000E+00,003";
              Write "Q7X"])
    = (es ++ [Write "Q7X"])%list.
Proof.
  apply (read_multiple_returns_storage_off 10 3 do_nothing [VNone] 5
           (fresh lab_device) _
           ([VInt 0; VInt 10; VInt 20], [1%float; 2.5%float; 3%float])).
  vm_compute. reflexivity.
Defined.

(** X5: whenever [read] returns, it returns one number and never a series,
    the sample count was 1 or less, and the last thing that happened on the
    channel is the command that turns the data storage off. *)
Theorem read_returns_scalar_storage_off
    (interval samples : Z) (update_graph : callback) (args : list value)
    (fuel : nat) (w w' : world) (r : reading) :
  read interval samples update_graph args fuel w = (Return r, w') ->
  samples <= 1
  /\ (exists x, r = Scalar x)
  /\ exists es, trace w' = (es ++ [Write "Q7X"])%list.
Proof.
  intros H. unfold read in H.
  destruct (Z.gtb_spec samples 1) as [Hgt | Hle].
  - rewrite (bind_raise _ _ w w (NameError "figure")) in H by reflexivity.
    discriminate H.
  - split; [exact Hle |].
    bind_inv H. injection H as <- <-. split; [now exists a |].
    unfold read_one in Hm.
    bind_inv Hm. bind_inv Hm. bind_inv Hm. bind_inv Hm.
    rewrite write_run in Hm3. injection Hm3 as _ <-.
    unfold last_item in Hm. destruct (rev (One.Data a2)); [discriminate Hm |].
    injection Hm as _ <-. now exists (trace w3).
Qed.

Lemma read_returns_scalar_storage_off_witness :
  (1 <= 1)
  /\ (exists x, Scalar 2.5%float = Scalar x)
  /\ exists es,
       trace (extend (fresh lab_device) 4
                [Write "B1Q2G2X"; ReadLine "NDCV+1.0000E+00,001";
                 Sleep 10; Write "B1X"; ReadLine "NDCV+1.0000E+00,001";
                 Sleep 10; Write "B1X"; ReadLine "NDCV+2.5000E+00,002";
                 Sleep 10; Write "B1X"; ReadLine "?"; Write "Q7X"])
       = (es ++ [Write "Q7X"])%list.
Proof.
  apply (read_returns_scalar_storage_off 10 1 do_nothing [] 3
           (fresh lab_device)).
  vm_compute. reflexivity.
Defined.

(** A turn of the loop of [read_multiple] keeps the times and the values
    in step with the expected index. *)
Lemma multiple_body_lengths (interval : Z) (update_graph : callback)
    (args : list value) (st st' : Multiple.state) (w w' : world) :
  Multiple.body interval update_graph args st w = (Return st', w') ->
  values_ok (Multiple.CurrentSample st) (Multiple.Data st) ->
  List.length (Multiple.Time st) = List.length (Multiple.Data st) ->
  values_ok (Multiple.CurrentSample st') (Multiple.Data st')
  /\ List.length (Multiple.Time st') = List.length (Multiple.Data st')
  /\ Multiple.CurrentSample st <= Multiple.CurrentSample st'
     <= Multiple.CurrentSample st + 1.
Proof.
  unfold values_ok. intros H Hv Hl. unfold Multiple.body in H.
  bind_inv H. rewrite multiple_poll_run in H. injection H as <- _.
  cbn [Multiple.CurrentSample Multiple.Data Multiple.Time].
  destruct (Py.contains (tag (Multiple.CurrentSample st)) (Multiple.Datum st)).
  - bind_inv Hm. bind_inv Hm. bind_inv Hm. bind_inv Hm. bind_inv Hm.
    injection Hm as <- _.
    cbn [Multiple.CurrentSample Multiple.Data Multiple.Time].
    destruct (interval =? 0); rewrite !length_app; cbn; lia.
  - destruct (Py.contains (tag (Multiple.CurrentSample st - 1))
                (Multiple.Datum st)).
    + bind_inv Hm. injection Hm as <- _. lia.
    + injection Hm as <- _. lia.
Qed.

Lemma multiple_loop_lengths (interval samples : Z) (update_graph : callback)
    (args : list value) (fuel : nat) :
  forall (st st' : Multiple.state) (w w' : world),
    Multiple.loop fuel interval samples update_graph args st w
      = (Return st', w') ->
    values_ok (Multiple.CurrentSample st) (Multiple.Data st) ->
    List.length (Multiple.Time st) = List.length (Multiple.Data st) ->
    values_ok (Multiple.CurrentSample st') (Multiple.Data st')
    /\ List.length (Multiple.Time st') = List.length (Multiple.Data st')
    /\ Multiple.CurrentSample st'
       = Z.max (Multiple.CurrentSample st) (samples + 1).
Proof.
  induction fuel as [| fuel IH]; intros st st' w w' H Hv Hl;
    cbn [Multiple.loop] in H;
    destruct (Z.leb_spec (Multiple.CurrentSample st) samples) as [Hle | Hgt].
  - discriminate H.
  - injection H as <- _. repeat split; try assumption. lia.
  - bind_inv H.
    destruct (multiple_body_lengths _ _ _ _ _ _ _ Hm Hv Hl) as (Hv' & Hl' & Hc).
    destruct (IH _ _ _ _ H Hv' Hl') as (Hv2 & Hl2 & Hc2).
    repeat split; try assumption. lia.
  - injection H as <- _. repeat split; try assumption. lia.
Qed.

(** X6: whenever [read_multiple] returns, for any sample count and any
    callback, it returns as many times as values, and exactly as many as
    samples were asked for (none for a count of 0 or less). *)
Theorem read_multiple_lengths
    (interval samples : Z) (update_graph : callback) (args : list value)
    (fuel : nat) (w w' : world) (times : list value) (values : list float) :
  read_multiple interval samples update_graph args fuel w
    = (Return (times, values), w') ->
  List.length times = Z.to_nat samples
  /\ List.length values = Z.to_nat samples.
Proof.
  intros H. unfold read_multiple in H.
  bind_inv H. bind_inv H. bind_inv H. bind_inv H. bind_inv H. bind_inv H.
  bind_inv H. injection H as <- <- _.
  apply multiple_loop_lengths in Hm4 as (Hv & Hl & Hc);
    [| reflexivity | reflexivity].
  unfold values_ok in Hv. cbn [Multiple.CurrentSample] in Hc. lia.
Qed.

Lemma read_multiple_lengths_witness :
  List.length [VInt 0; VInt 10; VInt 20] = Z.to_nat 3
  /\ List.length [1%float; 2.5%float; 3%float] = Z.to_nat 3.
Proof.
  apply (read_multiple_lengths 10 3 do_nothing [VNone] 5 (fresh lab_device)
           (extend (fresh lab_device) 6
              [Write "B1Q2G2X"; Sleep 10; ReadLine "NDCV+1.0000E+00,001";
               Sleep 10; Write "B1X"; ReadLine "NDCV+1.0000E+00,001";
               Sleep 10; Write "B1X"; ReadLine "NDCV+2.5000E+00,002";
               Sleep 10; Write "B1X"; ReadLine "?";
               Write "B1X"; ReadLine "NDCV+3.0000E+00,003";
               Sleep 10; Write "B1X"; ReadLine "NDCV+3.0000E+00,003";
               Write "Q7X"])).
  vm_compute. reflexivity.
Defined.

(** ** Further properties: a complete multi-sample acquisition *)

Lemma multiple_body_skip (interval : Z) (update_graph : callback)
    (args : list value) (st : Multiple.state) (w : world) :
  0 <= interval ->
  Py.contains (tag (Multiple.CurrentSample st)) (Multiple.Datum st) = false ->
  exists es,
    Multiple.body interval update_graph args st w
    = (Return {| Multiple.Time := Multiple.Time st;
                 Multiple.Data := Multiple.Data st;
                 Multiple.CurrentSample := Multiple.CurrentSample st;
                 Multiple.Datum := device w (reads w) |},
       extend w 1 es).
Proof.
  intros Hi Hcur. unfold Multiple.body. rewrite Hcur.
  destruct (Py.contains (tag (Multiple.CurrentSample st - 1))
              (Multiple.Datum st)).
  - eexists.
    erewrite bind_return
      by (erewrite bind_return by (apply sleep_run; exact Hi); reflexivity).
    rewrite multiple_poll_run, extend_extend. cbn.
    now rewrite Nat.add_0_r.
  - eexists.
    rewrite (bind_return _ _ w w st) by reflexivity.
    apply multiple_poll_run.
Qed.

Lemma multiple_body_accept (interval : Z) (update_graph : callback)
    (args : list value) (st : Multiple.state) (x : float) (w : world) :
  0 <= interval ->
  quiet update_graph args ->
  Py.contains (tag (Multiple.CurrentSample st)) (Multiple.Datum st) = true ->
  Py.float_of_string (sample_text (Multiple.Datum st)) = Some x ->
  Multiple.body interval update_graph args st w
  = (Return
       {| Multiple.Time :=
            (Multiple.Time st
             ++ [sample_time interval (Multiple.CurrentSample st)])%list;
          Multiple.Data := (Multiple.Data st ++ [x])%list;
          Multiple.CurrentSample := Multiple.CurrentSample st + 1;
          Multiple.Datum := device w (reads w) |},
     extend w 1 [Sleep interval; Write "B1X"; ReadLine (device w (reads w))]).
Proof.
  intros Hi Hq Hcur Hx. unfold Multiple.body, sample_time.
  rewrite Hcur. unfold sample_value. rewrite Hx.
  destruct (interval =? 0).
  all: erewrite bind_return; cycle 1.
  1, 3: rewrite (bind_return _ _ w w x) by reflexivity;
    rewrite (bind_return _ _ _ _ _ (last_item_snoc _ _ _));
    rewrite (bind_return _ _ _ _ _ (last_item_snoc _ _ _));
    rewrite (bind_return _ _ _ _ _ (Hq _ _ _));
    rewrite (bind_return _ _ _ _ _ (sleep_run _ _ Hi)); reflexivity.
  all: rewrite multiple_poll_run, extend_extend; cbn;
    now rewrite Nat.add_0_r.
Qed.

Lemma multiple_loop_done (interval samples : Z) (update_graph : callback)
    (args : list value) (fuel : nat) (st : Multiple.state) (w : world) :
  samples < Multiple.CurrentSample st ->
  Multiple.loop fuel interval samples update_graph args st w = (Return st, w).
Proof.
  intros H.
  destruct fuel; cbn [Multiple.loop];
    (destruct (Z.leb_spec (Multiple.CurrentSample st) samples);
     [lia | reflexivity]).
Qed.

Lemma multiple_loop_skip (interval samples : Z) (update_graph : callback)
    (args : list value) (n : nat) :
  0 <= interval ->
  forall (fuel : nat) (st : Multiple.state) (w : world) (p : nat),
    reads w = S p ->
    Multiple.Datum st = device w p ->
    Multiple.CurrentSample st <= samples ->
    (forall i, (p <= i < p + n)%nat ->
       Py.contains (tag (Multiple.CurrentSample st)) (device w i) = false) ->
    exists es,
      Multiple.loop (n + fuel) interval samples update_graph args st w
      = Multiple.loop fuel interval samples update_graph args
          {| Multiple.Time := Multiple.Time st;
             Multiple.Data := Multiple.Data st;
             Multiple.CurrentSample := Multiple.CurrentSample st;
             Multiple.Datum := device w (p + n) |}
          (extend w n es).
Proof.
  intros Hi. induction n as [| n IH]; intros fuel st w p Hr Hd Hc Hno.
  - exists []. rewrite extend_nil, Nat.add_0_r, <- Hd.
    now destruct st.
  - cbn [Nat.add Multiple.loop].
    destruct (Z.leb_spec (Multiple.CurrentSample st) samples) as [_ | Hgt];
      [| lia].
    destruct (multiple_body_skip interval update_graph args st w Hi)
      as [es1 Hb].
    { rewrite Hd. apply Hno. lia. }
    rewrite (bind_return _ _ _ _ _ Hb).
    destruct (IH fuel
                {| Multiple.Time := Multiple.Time st;
                   Multiple.Data := Multiple.Data st;
                   Multiple.CurrentSample := Multiple.CurrentSample st;
                   Multiple.Datum := device w (reads w) |}
                (extend w 1 es1) (S p)) as [es2 Hl].
    + cbn. rewrite Hr. lia.
    + cbn. now rewrite Hr.
    + exact Hc.
    + cbn. intros i Hi'. apply Hno. lia.
    + exists (es1 ++ es2)%list. rewrite Hl.
      cbn [Multiple.Time Multiple.Data Multiple.CurrentSample].
      rewrite extend_extend. cbn [device extend].
      now rewrite Nat.add_succ_r.
Qed.

Lemma multiple_loop_seek (interval samples : Z) (update_graph : callback)
    (args : list value) (fuel : nat) (st : Multiple.state) (x : float)
    (w : world) (p j : nat) :
  0 <= interval ->
  quiet update_graph args ->
  reads w = S p ->
  Multiple.Datum st = device w p ->
  Multiple.CurrentSample st <= samples ->
  first_tagged (device w) (tag (Multiple.CurrentSample st)) p j = true ->
  Py.float_of_string (sample_text (device w j)) = Some x ->
  exists es,
    Multiple.loop ((j - p) + S fuel) interval samples update_graph args st w
    = Multiple.loop fuel interval samples update_graph args
        {| Multiple.Time :=
             (Multiple.Time st
              ++ [sample_time interval (Multiple.CurrentSample st)])%list;
           Multiple.Data := (Multiple.Data st ++ [x])%list;
           Multiple.CurrentSample := Multiple.CurrentSample st + 1;
           Multiple.Datum := device w (S j) |}
        (extend w (S (j - p)) es).
Proof.
  intros Hi Hq Hr Hd Hc Hft Hx.
  apply first_tagged_spec in Hft. destruct Hft as (Hle & Hj & Hno).
  destruct (multiple_loop_skip interval samples update_graph args (j - p) Hi
              (S fuel) st w p Hr Hd Hc) as [es1 Hs].
  { intros i Hi'. apply Hno. lia. }
  replace (p + (j - p))%nat with j in Hs by lia.
  rewrite Hs. cbn [Multiple.loop].
  cbn [Multiple.CurrentSample].
  destruct (Z.leb_spec (Multiple.CurrentSample st) samples) as [_ | Hgt];
    [| lia].
  erewrite bind_return
    by (apply (multiple_body_accept interval update_graph args _ x);
        [exact Hi | exact Hq | exact Hj | exact Hx]).
  eexists. cbn [Multiple.Time Multiple.Data Multiple.CurrentSample].
  rewrite extend_extend. cbn [device reads extend].
  rewrite Hr. replace (S p + (j - p))%nat with (S j) by lia.
  replace (j - p + 1)%nat with (S (j - p)) by lia.
  reflexivity.
Qed.

(** The loop goes through a chain of tagged lines, one sample each. *)
Lemma multiple_loop_chain (interval samples : Z) (update_graph : callback)
    (args : list value) :
  0 <= interval ->
  quiet update_graph args ->
  forall (js : list nat) (xs : list float) (fuel : nat)
         (st : Multiple.state) (w : world) (p : nat),
    reads w = S p ->
    Multiple.Datum st = device w p ->
    chain (device w) (Multiple.CurrentSample st) p js xs ->
    Multiple.CurrentSample st + Z.of_nat (List.length js) <= samples + 1 ->
    exists es d,
      Multiple.loop (span p js + fuel) interval samples update_graph args st w
      = Multiple.loop fuel interval samples update_graph args
          {| Multiple.Time :=
               (Multiple.Time st
                ++ map (fun k => sample_time interval
                                   (Multiple.CurrentSample st + Z.of_nat k))
                     (seq 0 (List.length js)))%list;
             Multiple.Data := (Multiple.Data st ++ xs)%list;
             Multiple.CurrentSample :=
               Multiple.CurrentSample st + Z.of_nat (List.length js);
             Multiple.Datum := d |}
          (extend w (span p js) es).
Proof.
  intros Hi Hq. induction js as [| j js IH];
    intros xs fuel st w p Hr Hd Hch Hc; destruct xs as [| x xs];
    cbn [chain] in Hch; try contradiction.
  - exists [], (Multiple.Datum st). cbn [span List.length seq map Nat.add].
    rewrite extend_nil, !app_nil_r, Z.add_0_r. now destruct st.
  - destruct Hch as (Hft & Hx & Hch).
    pose proof (first_tagged_spec _ _ _ _ Hft) as (Hle & _ & _).
    cbn [span List.length] in *.
    rewrite <- Nat.add_assoc. cbn [Nat.add].
    destruct (multiple_loop_seek interval samples update_graph args
                (span (S j) js + fuel) st x w p j Hi Hq Hr Hd)
      as [es1 Hs]; [lia | exact Hft | exact Hx |].
    rewrite Hs.
    destruct (IH xs fuel
                {| Multiple.Time :=
                     (Multiple.Time st
                      ++ [sample_time interval (Multiple.CurrentSample st)])%list;
                   Multiple.Data := (Multiple.Data st ++ [x])%list;
                   Multiple.CurrentSample := Multiple.CurrentSample st + 1;
                   Multiple.Datum := device w (S j) |}
                (extend w (S (j - p)) es1) (S j)) as (es2 & d & Hl).
    + cbn. rewrite Hr. lia.
    + reflexivity.
    + exact Hch.
    + cbn [Multiple.CurrentSample]. lia.
    + exists (es1 ++ es2)%list, d. rewrite Hl.
      cbn [Multiple.Time Multiple.Data Multiple.CurrentSample].
      rewrite extend_extend, <- !app_assoc.
      cbn [seq map]. rewrite <- seq_shift, map_map, Z.add_0_r.
      replace (S (j - p) + span (S j) js)%nat
        with (j - p + S (span (S j) js))%nat by lia.
      replace (Multiple.CurrentSample st + 1 + Z.of_nat (List.length js))
        with (Multiple.CurrentSample st + Z.of_nat (S (List.length js)))
        by lia.
      rewrite (map_ext
                 (fun k => sample_time interval
                             (Multiple.CurrentSample st + 1 + Z.of_nat k))
                 (fun k => sample_time interval
                             (Multiple.CurrentSample st + Z.of_nat (S k))))
        by (intros k; f_equal; lia).
      reflexivity.
Qed.

(** X7: a complete multi-sample acquisition.  Let the instrument answer,
    from the first line on, a first line tagged [,001], later a first line
    tagged [,002], and so on up to the sample count (at most 100), each with
    a sample text that parses; lines in between are passed over.  Then, for
    an allowed interval, a callback that returns quietly and fuel for one
    turn per line examined, [read_multiple] returns the parsed values in
    order with the times [0, 1, 2, ...] scaled by 0.360 or by the interval,
    having read one line more than it examined and ending with the command
    that turns the storage off. *)
Theorem read_multiple_run
    (interval : Z) (update_graph : callback) (args : list value)
    (js : list nat) (xs : list float) (fuel : nat) (w : world) :
  allowed_interval interval = true ->
  Z.of_nat (List.length js) <= 100 ->
  quiet update_graph args ->
  chain (device w) 1 (reads w) js xs ->
  (span (reads w) js <= fuel)%nat ->
  exists es,
    read_multiple interval (Z.of_nat (List.length js)) update_graph args fuel w
    = (Return
         (map (fun k =>
                 if interval =? 0
                 then VFloat (Py.float_of_int (Z.of_nat k) * 0.360)%float
                 else VInt (Z.of_nat k * interval))
            (seq 0 (List.length js)),
          xs),
       extend w (S (span (reads w) js)) (es ++ [Write "Q7X"])).
Proof.
  intros Ha Hn Hq Hch Hfuel.
  pose proof (allowed_interval_nonneg _ Ha) as Hi.
  destruct (store_data_allowed interval w Ha) as [cmd Hst].
  unfold read_multiple. rewrite Ha. cbn [negb].
  rewrite (bind_return _ _ w w tt) by reflexivity.
  rewrite (bind_return _ _ w w tt)
    by (unfold raise_if;
        destruct (Z.gtb_spec (Z.of_nat (List.length js)) 100);
        [lia | reflexivity]).
  rewrite (bind_return _ _ _ _ _ Hst).
  rewrite (bind_return _ _ _ _ _ (sleep_run _ _ Hi)).
  rewrite (bind_return _ _ _ _ _ (readline_run _)).
  rewrite !extend_extend. cbn [device reads extend Nat.add app].
  rewrite Nat.add_0_r.
  set (w2 := extend w 1 _).
  replace fuel
    with (span (reads w) js + (fuel - span (reads w) js))%nat by lia.
  destruct (multiple_loop_chain interval (Z.of_nat (List.length js))
              update_graph args Hi Hq js xs (fuel - span (reads w) js)
              {| Multiple.Time := []; Multiple.Data := [];
                 Multiple.CurrentSample := 1;
                 Multiple.Datum := device w (reads w) |}
              w2 (reads w)) as (es & d & Hl).
  - cbn. lia.
  - reflexivity.
  - exact Hch.
  - cbn [Multiple.CurrentSample]. lia.
  - cbn [Multiple.Time Multiple.Data Multiple.CurrentSample app] in Hl.
    erewrite bind_return; cycle 1.
    { rewrite Hl. apply multiple_loop_done.
      cbn [Multiple.CurrentSample]. lia. }
    rewrite (bind_return _ _ _ _ _ (write_run _ _)).
    cbn [Multiple.Time Multiple.Data].
    exists ([Write cmd; Sleep interval; ReadLine (device w (reads w))]
            ++ es)%list.
    unfold ret, w2. rewrite !extend_extend. f_equal.
    + do 2 f_equal. apply map_ext. intros k. unfold sample_time.
      now replace (1 + Z.of_nat k - 1) with (Z.of_nat k) by lia.
    + rewrite Nat.add_0_r, <- !app_assoc. reflexivity.
Qed.

Lemma read_multiple_run_witness :
  exists es,
    read_multiple 10 (Z.of_nat (List.length [0; 2; 4]%nat)) do_nothing [VNone]
      5 (fresh lab_device)
    = (Return
         (map (fun k =>
                 if 10 =? 0
                 then VFloat (Py.float_of_int (Z.of_nat k) * 0.360)%float
                 else VInt (Z.of_nat k * 10))
            (seq 0 (List.length [0; 2; 4]%nat)),
          [1%float; 2.5%float; 3%float]),
       extend (fresh lab_device)
         (S (span (reads (fresh lab_device)) [0; 2; 4]%nat))
         (es ++ [Write "Q7X"])).
Proof.
  apply (read_multiple_run 10 do_nothing [VNone] [0; 2; 4]%nat
           [1%float; 2.5%float; 3%float] 5 (fresh lab_device)).
  - reflexivity.
  - cbn. lia.
  - intros t x w. reflexivity.
  - cbn [chain]. repeat split; vm_compute; reflexivity.
  - cbn. lia.
Defined.

(** ** Further properties: what stops an acquisition *)

(** X8: there is no timeout.  If no line the instrument answers from now on
    carries the tag [,001], then for an allowed interval neither
    [read_multiple] (asked for 1 to 100 samples, with any callback) nor the
    single-sample [read] finishes: whatever the fuel, the loop is still
    turning when it runs out. *)
Theorem no_first_sample_no_end
    (interval samples : Z) (update_graph : callback) (args : list value)
    (fuel : nat) (w : world) :
  allowed_interval interval = true ->
  1 <= samples <= 100 ->
  (forall i, (reads w <= i)%nat ->
     Py.contains (tag 1) (device w i) = false) ->
  fst (read_multiple interval samples update_graph args fuel w) = OutOfFuel
  /\ fst (read interval 1 update_graph args fuel w) = OutOfFuel.
Proof.
  intros Ha Hs Hno.
  pose proof (allowed_interval_nonneg _ Ha) as Hi.
  destruct (store_data_allowed interval w Ha) as [cmd Hst].
  split.
  - unfold read_multiple. rewrite Ha. cbn [negb].
    rewrite (bind_return _ _ w w tt) by reflexivity.
    rewrite (bind_return _ _ w w tt)
      by (unfold raise_if; destruct (Z.gtb_spec samples 100);
          [lia | reflexivity]).
    rewrite (bind_return _ _ _ _ _ Hst).
    rewrite (bind_return _ _ _ _ _ (sleep_run _ _ Hi)).
    rewrite (bind_return _ _ _ _ _ (readline_run _)).
    rewrite !extend_extend. cbn [device reads extend Nat.add app].
    rewrite Nat.add_0_r.
    set (w2 := extend w 1 _).
    destruct (multiple_loop_skip interval samples update_graph args fuel Hi 0
                {| Multiple.Time := []; Multiple.Data := [];
                   Multiple.CurrentSample := 1;
                   Multiple.Datum := device w (reads w) |}
                w2 (reads w)) as [es Hl].
    + cbn. lia.
    + reflexivity.
    + cbn. lia.
    + intros i Hi'. apply Hno. lia.
    + rewrite Nat.add_0_r in Hl. unfold bind at 1. rewrite Hl.
      cbn [Multiple.loop Multiple.CurrentSample].
      destruct (Z.leb_spec 1 samples); [reflexivity | lia].
  - unfold read. change (1 >? 1) with false. cbv iota.
    unfold read_one.
    unfold bind at 1. unfold bind at 1.
    rewrite Hst. unfold bind at 1. rewrite readline_run.
    rewrite extend_extend. cbn [device reads extend Nat.add app].
    rewrite Nat.add_0_r.
    set (w2 := extend w 1 _).
    destruct (one_loop_skip interval 2 fuel Hi 0
                {| One.Data := []; One.CurrentSample := 1;
                   One.Datum := device w (reads w) |}
                w2 (reads w)) as [es Hl].
    + cbn. lia.
    + reflexivity.
    + cbn. lia.
    + intros i Hi'. apply Hno. lia.
    + rewrite Nat.add_0_r in Hl. unfold bind at 1. rewrite Hl.
      reflexivity.
Qed.

Lemma no_first_sample_no_end_witness :
  fst (read_multiple 10 3 do_nothing [VNone] 50 (fresh quiet_device))
    = OutOfFuel
  /\ fst (read 10 1 do_nothing [VNone] 50 (fresh quiet_device)) = OutOfFuel.
Proof.
  apply (no_first_sample_no_end 10 3 do_nothing [VNone] 50
           (fresh quiet_device)).
  - reflexivity.
  - lia.
  - intros i _. reflexivity.
Defined.

Lemma one_body_bad (interval : Z) (st : One.state) (w : world) :
  Py.contains (tag (One.CurrentSample st)) (One.Datum st) = true ->
  Py.float_of_string (sample_text (One.Datum st)) = None ->
  One.body interval st w
  = (Raise (ValueError (sample_text (One.Datum st))), w).
Proof.
  intros Hcur Hx. unfold One.body. rewrite Hcur.
  apply bind_raise, bind_raise. unfold sample_value. now rewrite Hx.
Qed.

Lemma multiple_body_bad (interval : Z) (update_graph : callback)
    (args : list value) (st : Multiple.state) (w : world) :
  Py.contains (tag (Multiple.CurrentSample st)) (Multiple.Datum st) = true ->
  Py.float_of_string (sample_text (Multiple.Datum st)) = None ->
  Multiple.body interval update_graph args st w
  = (Raise (ValueError (sample_text (Multiple.Datum st))), w).
Proof.
  intros Hcur Hx. unfold Multiple.body. rewrite Hcur.
  apply bind_raise, bind_raise. unfold sample_value. now rewrite Hx.
Qed.

(** X9: an unreadable sample aborts the acquisition.  If the first line
    tagged [,001] has a sample text that is not a float literal, then, for
    an allowed interval and fuel to reach that line, both [read_multiple]
    (1 to 100 samples, any callback) and the single-sample [read] raise
    [ValueError] on that text, having read the lines up to that one. *)
Theorem unreadable_first_sample
    (interval samples : Z) (update_graph : callback) (args : list value)
    (fuel : nat) (w : world) (j : nat) :
  allowed_interval interval = true ->
  1 <= samples <= 100 ->
  first_tagged (device w) (tag 1) (reads w) j = true ->
  Py.float_of_string (sample_text (device w j)) = None ->
  (j - reads w < fuel)%nat ->
  (exists es,
     read_multiple interval samples update_graph args fuel w
     = (Raise (ValueError (sample_text (device w j))),
        extend w (S (j - reads w)) es))
  /\ (exists es,
        read interval 1 update_graph args fuel w
        = (Raise (ValueError (sample_text (device w j))),
           extend w (S (j - reads w)) es)).
Proof.
  intros Ha Hs Hft Hx Hfuel.
  pose proof (allowed_interval_nonneg _ Ha) as Hi.
  destruct (first_tagged_spec _ _ _ _ Hft) as (Hle & Hj & Hno).
  destruct (store_data_allowed interval w Ha) as [cmd Hst].
  replace fuel with ((j - reads w) + S (fuel - (j - reads w) - 1))%nat by lia.
  split.
  - unfold read_multiple. rewrite Ha. cbn [negb].
    rewrite (bind_return _ _ w w tt) by reflexivity.
    rewrite (bind_return _ _ w w tt)
      by (unfold raise_if; destruct (Z.gtb_spec samples 100);
          [lia | reflexivity]).
    rewrite (bind_return _ _ _ _ _ Hst).
    rewrite (bind_return _ _ _ _ _ (sleep_run _ _ Hi)).
    rewrite (bind_return _ _ _ _ _ (readline_run _)).
    rewrite !extend_extend. cbn [device reads extend Nat.add app].
    rewrite Nat.add_0_r.
    set (w2 := extend w 1 _).
    destruct (multiple_loop_skip interval samples update_graph args
                (j - reads w) Hi (S (fuel - (j - reads w) - 1))
                {| Multiple.Time := []; Multiple.Data := [];
                   Multiple.CurrentSample := 1;
                   Multiple.Datum := device w (reads w) |}
                w2 (reads w)) as [es Hl].
    + cbn. lia.
    + reflexivity.
    + cbn. lia.
    + intros i Hi'. apply Hno. lia.
    + replace (reads w + (j - reads w))%nat with j in Hl by lia.
      eexists. apply bind_raise. rewrite Hl. cbn [Multiple.loop].
      cbn [Multiple.CurrentSample].
      destruct (Z.leb_spec 1 samples); [| lia].
      apply bind_raise.
      rewrite multiple_body_bad by (cbn; assumption).
      cbn [Multiple.Datum]. unfold w2. rewrite extend_extend.
      reflexivity.
  - unfold read. change (1 >? 1) with false. cbv iota.
    unfold read_one.
    destruct (one_loop_skip interval 2 (j - reads w) Hi
                (S (fuel - (j - reads w) - 1))
                {| One.Data := []; One.CurrentSample := 1;
                   One.Datum := device w (reads w) |}
                (extend w 1 [Write cmd; ReadLine (device w (reads w))])
                (reads w)) as [es Hl].
    + cbn. lia.
    + reflexivity.
    + cbn. lia.
    + intros i Hi'. apply Hno. lia.
    + replace (reads w + (j - reads w))%nat with j in Hl by lia.
      eexists. apply bind_raise.
      rewrite (bind_return _ _ _ _ _ Hst).
      rewrite (bind_return _ _ _ _ _ (readline_run _)).
      rewrite !extend_extend. cbn [device reads extend Nat.add app].
      rewrite Nat.add_0_r.
      apply bind_raise. rewrite Hl. cbn [One.loop One.CurrentSample].
      change (1 <=? 2) with true. cbv iota.
      apply bind_raise.
      rewrite one_body_bad by (cbn; assumption).
      cbn [One.Datum]. rewrite extend_extend.
      reflexivity.
Qed.

Lemma unreadable_first_sample_witness :
  (exists es,
     read_multiple 10 3 do_nothing [VNone] 1 (fresh short_device)
     = (Raise (ValueError (sample_text (device (fresh short_device) 0))),
        extend (fresh short_device) (S (0 - reads (fresh short_device))) es))
  /\ (exists es,
        read 10 1 do_nothing [VNone] 1 (fresh short_device)
        = (Raise (ValueError (sample_text (device (fresh short_device) 0))),
           extend (fresh short_device) (S (0 - reads (fresh short_device)))
             es)).
Proof.
  apply (unreadable_first_sample 10 3 do_nothing [VNone] 1
           (fresh short_device) 0).
  - reflexivity.
  - lia.
  - reflexivity.
  - reflexivity.
  - cbn. lia.
Defined.

(** X10: a response line whose first comma lies within its first five
    characters has an empty sample text, which [float] refuses: such a
    frame can be accepted by its tag but never parsed. *)
Theorem short_prefix_unparseable (Datum : string) (w : world) :
  0 <= Py.find "," Datum <= 4 ->
  sample_text Datum = ""
  /\ sample_value Datum w = (Raise (ValueError ""), w).
Proof.
  intros Hk.
  assert (E : sample_text Datum = "").
  { unfold sample_text, Py.slice, Py.clip.
    assert (Hlen : 0 <= Py.len Datum) by (unfold Py.len; lia).
    destruct (Z.ltb_spec (Py.find "," Datum) 0); [lia |].
    change (4 <? 0) with false. cbv iota.
    destruct (Z.ltb_spec (Z.min 4 (Py.len Datum))
                (Z.min (Py.find "," Datum) (Py.len Datum)));
      [lia | reflexivity]. }
  split; [exact E |].
  unfold sample_value. rewrite E. reflexivity.
Qed.

Lemma short_prefix_unparseable_witness :
  sample_text "ERR,001" = ""
  /\ sample_value "ERR,001" (fresh short_device)
     = (Raise (ValueError ""), fresh short_device).
Proof.
  apply (short_prefix_unparseable "ERR,001" (fresh short_device)).
  vm_compute. split; discriminate.
Defined.

(** ** Further properties: the storage is left on unless the call returns *)

Lemma bind_out_of_fuel {A B : Type} (m : M A) (k : A -> M B) (w w' : world) :
  m w = (OutOfFuel, w') -> bind m k w = (OutOfFuel, w').
Proof. intros H. unfold bind. now rewrite H. Qed.

Lemma polling_no_stop (es : list event) :
  forallb polling es = true -> ~ In (Write "Q7X") es.
Proof.
  rewrite forallb_forall. intros H Hin. apply H in Hin. discriminate Hin.
Qed.

(** The storage command is never the one that stops the storage. *)
Lemma store_data_cases (interval : Z) (w : world) :
  store_data interval w = (Raise InvalidSampleInterval, w)
  \/ exists cmd,
       store_data interval w = (Return tt, extend w 0 [Write cmd])
       /\ cmd <> "Q7X"
       /\ 0 <= interval.
Proof.
  destruct (allowed_interval interval) eqn:Ha.
  - right. pose proof (allowed_interval_nonneg _ Ha) as Hi.
    apply allowed_interval_spec in Ha. cbn in Ha.
    destruct Ha as [H | [H | [H | [H | [H | [H | []]]]]]]; subst interval;
      eexists; (split; [unfold store_data; cbn; apply write_run |]);
      (split; [discriminate | exact Hi]).
  - left. now apply store_data_rejected.
Qed.

Lemma one_body_skip_polling (interval : Z) (st : One.state) (w : world) :
  0 <= interval ->
  Py.contains (tag (One.CurrentSample st)) (One.Datum st) = false ->
  exists es,
    forallb polling es = true
    /\ One.body interval st w
       = (Return {| One.Data := One.Data st;
                    One.CurrentSample := One.CurrentSample st;
                    One.Datum := device w (reads w) |},
          extend w 1 es).
Proof.
  intros Hi Hcur. unfold One.body. rewrite Hcur.
  destruct (Py.contains (tag (One.CurrentSample st - 1)) (One.Datum st)).
  - exists [Sleep interval; Write "B1X"; ReadLine (device w (reads w))].
    split; [reflexivity |].
    erewrite bind_return
      by (erewrite bind_return by (apply sleep_run; exact Hi); reflexivity).
    rewrite one_poll_run, extend_extend. cbn.
    now rewrite Nat.add_0_r.
  - exists [Write "B1X"; ReadLine (device w (reads w))].
    split; [reflexivity |].
    rewrite (bind_return _ _ w w st) by reflexivity.
    apply one_poll_run.
Qed.

(** A turn of the loop of [read_one] either returns with the values in step
    with the expected index, or raises [ValueError]; all it does on the
    channel is polling. *)
Lemma one_body_cases (interval : Z) (st : One.state) (w : world) :
  0 <= interval ->
  values_ok (One.CurrentSample st) (One.Data st) ->
  exists k es,
    forallb polling es = true
    /\ ((exists st',
           One.body interval st w = (Return st', extend w k es)
           /\ values_ok (One.CurrentSample st') (One.Data st'))
        \/ (exists text,
              One.body interval st w
              = (Raise (ValueError text), extend w k es))).
Proof.
  intros Hi Hv.
  destruct (Py.contains (tag (One.CurrentSample st)) (One.Datum st)) eqn:Hcur.
  - destruct (Py.float_of_string (sample_text (One.Datum st))) as [x |] eqn:Hx.
    + exists 1%nat, [Sleep interval; Write "B1X"; ReadLine (device w (reads w))].
      split; [reflexivity |]. left. eexists. split.
      * apply (one_body_accept interval st x w Hi Hcur Hx).
      * unfold values_ok in *. cbn. rewrite length_app. cbn. lia.
    + exists 0%nat, []. split; [reflexivity |]. right. eexists.
      rewrite extend_nil. now apply one_body_bad.
  - destruct (one_body_skip_polling interval st w Hi Hcur) as (es & Hp & Hb).
    exists 1%nat, es. split; [exact Hp |]. left. eexists.
    split; [exact Hb | exact Hv].
Qed.

Lemma one_loop_cases (interval samples : Z) (fuel : nat) :
  0 <= interval ->
  forall (st : One.state) (w : world),
    values_ok (One.CurrentSample st) (One.Data st) ->
    exists k es,
      forallb polling es = true
      /\ ((exists st',
             One.loop fuel interval samples st w
               = (Return st', extend w k es)
             /\ values_ok (One.CurrentSample st') (One.Data st')
             /\ samples < One.CurrentSample st')
          \/ (exists text,
                One.loop fuel interval samples st w
                = (Raise (ValueError text), extend w k es))
          \/ One.loop fuel interval samples st w
             = (OutOfFuel, extend w k es)).
Proof.
  intros Hi. induction fuel as [| fuel IH]; intros st w Hv;
    cbn [One.loop];
    destruct (Z.leb_spec (One.CurrentSample st) samples) as [Hle | Hgt].
  - exists 0%nat, []. split; [reflexivity |]. right. right.
    now rewrite extend_nil.
  - exists 0%nat, []. split; [reflexivity |]. left. exists st.
    now rewrite extend_nil.
  - destruct (one_body_cases interval st w Hi Hv)
      as (k1 & es1 & Hp1 & [(st1 & Hb & Hv1) | (text & Hb)]).
    + destruct (IH st1 (extend w k1 es1) Hv1)
        as (k2 & es2 & Hp2 & Hcases).
      exists (k1 + k2)%nat, (es1 ++ es2)%list.
      split; [rewrite forallb_app, Hp1, Hp2; reflexivity |].
      rewrite (bind_return _ _ _ _ _ Hb), <- extend_extend.
      exact Hcases.
    + exists k1, es1. split; [exact Hp1 |]. right. left. exists text.
      now apply bind_raise.
  - exists 0%nat, []. split; [reflexivity |]. left. exists st.
    now rewrite extend_nil.
Qed.

(** X11: [read_one] turns the storage off only when it returns.  If the
    call does not return a value, then it either ran out of fuel in the
    loop, or raised the interval error of the command chain, or raised
    [ValueError] on an unreadable sample; in each case nothing but the
    storage command, lines read and polling happened on the channel, and
    the command that turns the storage off was not sent. *)
Theorem read_one_unfinished
    (interval : Z) (fuel : nat) (w w' : world) (o : outcome float) :
  read_one interval fuel w = (o, w') ->
  (forall x, o <> Return x) ->
  (o = OutOfFuel \/ o = Raise InvalidSampleInterval
   \/ exists text, o = Raise (ValueError text))
  /\ exists k es, w' = extend w k es /\ ~ In (Write "Q7X") es.
Proof.
  intros H Hnot. unfold read_one in H.
  destruct (store_data_cases interval w) as [Hst | (cmd & Hst & Hcmd & Hi)].
  - rewrite (bind_raise _ _ _ _ _ Hst) in H. injection H as <- <-.
    split; [right; left; reflexivity |].
    exists 0%nat, []. rewrite extend_nil. split; [reflexivity | intros []].
  - rewrite (bind_return _ _ _ _ _ Hst) in H.
    rewrite (bind_return _ _ _ _ _ (readline_run _)) in H.
    rewrite extend_extend in H. cbn [device reads extend Nat.add app] in H.
    rewrite Nat.add_0_r in H.
    assert (Hstart : forall es,
              forallb polling es = true ->
              ~ In (Write "Q7X")
                  ([Write cmd; ReadLine (device w (reads w))] ++ es)).
    { intros es Hp [Hin | [Hin | Hin]].
      - injection Hin as Hin. now apply Hcmd.
      - discriminate Hin.
      - now apply (polling_no_stop es Hp). }
    destruct (one_loop_cases interval 2 fuel Hi
                {| One.Data := []; One.CurrentSample := 1;
                   One.Datum := device w (reads w) |}
                (extend w 1 [Write cmd; ReadLine (device w (reads w))]))
      as (k & es & Hp & [(st' & Hl & Hv & Hc) | [(text & Hl) | Hl]]).
    + reflexivity.
    + exfalso.
      rewrite (bind_return _ _ _ _ _ Hl) in H.
      rewrite (bind_return _ _ _ _ _ (write_run _ _)) in H.
      unfold last_item in H. unfold values_ok in Hv.
      destruct (rev (One.Data st')) as [| x l] eqn:Hrev.
      * apply (f_equal (@List.length float)) in Hrev.
        rewrite length_rev in Hrev. cbn in Hrev. lia.
      * injection H as <- _. now apply (Hnot x).
    + rewrite (bind_raise _ _ _ _ _ Hl) in H. injection H as <- <-.
      split; [right; right; now exists text |].
      rewrite extend_extend. eexists _, _. split; [reflexivity |].
      now apply Hstart.
    + rewrite (bind_out_of_fuel _ _ _ _ Hl) in H. injection H as <- <-.
      split; [left; reflexivity |].
      rewrite extend_extend. eexists _, _. split; [reflexivity |].
      now apply Hstart.
Qed.

Lemma read_one_unfinished_witness :
  (@Raise float (ValueError "") = OutOfFuel
   \/ @Raise float (ValueError "") = Raise InvalidSampleInterval
   \/ exists text, @Raise float (ValueError "") = Raise (ValueError text))
  /\ exists k es,
       extend (fresh short_device) 1 [Write "B1Q2G2X"; ReadLine "ERR,001"]
       = extend (fresh short_device) k es
       /\ ~ In (Write "Q7X") es.
Proof.
  apply (read_one_unfinished 10 4 (fresh short_device)).
  - vm_compute. reflexivity.
  - intros x. discriminate.
Defined.

Lemma multiple_body_skip_polling (interval : Z) (update_graph : callback)
    (args : list value) (st : Multiple.state) (w : world) :
  0 <= interval ->
  Py.contains (tag (Multiple.CurrentSample st)) (Multiple.Datum st) = false ->
  exists es,
    forallb polling es = true
    /\ Multiple.body interval update_graph args st w
       = (Return {| Multiple.Time := Multiple.Time st;
                    Multiple.Data := Multiple.Data st;
                    Multiple.CurrentSample := Multiple.CurrentSample st;
                    Multiple.Datum := device w (reads w) |},
          extend w 1 es).
Proof.
  intros Hi Hcur. unfold Multiple.body. rewrite Hcur.
  destruct (Py.contains (tag (Multiple.CurrentSample st - 1))
              (Multiple.Datum st)).
  - exists [Sleep interval; Write "B1X"; ReadLine (device w (reads w))].
    split; [reflexivity |].
    erewrite bind_return
      by (erewrite bind_return by (apply sleep_run; exact Hi); reflexivity).
    rewrite multiple_poll_run, extend_extend. cbn.
    now rewrite Nat.add_0_r.
  - exists [Write "B1X"; ReadLine (device w (reads w))].
    split; [reflexivity |].
    rewrite (bind_return _ _ w w st) by reflexivity.
    apply multiple_poll_run.
Qed.

(** On an accepted and readable frame the turn is the callback on the new
    time and value, then the pause and the poll. *)
Lemma multiple_body_callback (interval : Z) (update_graph : callback)
    (args : list value) (st : Multiple.state) (x : float) (w : world) :
  Py.contains (tag (Multiple.CurrentSample st)) (Multiple.Datum st) = true ->
  Py.float_of_string (sample_text (Multiple.Datum st)) = Some x ->
  Multiple.body interval update_graph args st w
  = bind (bind (update_graph
                  (sample_time interval (Multiple.CurrentSample st)) x args)
            (fun _ =>
               bind (sleep interval)
                 (fun _ =>
                    ret {| Multiple.Time :=
                             (Multiple.Time st
                              ++ [sample_time interval
                                    (Multiple.CurrentSample st)])%list;
                           Multiple.Data := (Multiple.Data st ++ [x])%list;
                           Multiple.CurrentSample :=
                             Multiple.CurrentSample st + 1;
                           Multiple.Datum := Multiple.Datum st |})))
      Multiple.poll w.
Proof.
  intros Hcur Hx.
  unfold Multiple.body, sample_time, sample_value. rewrite Hcur, Hx.
  unfold bind at 1. unfold bind at 1. unfold ret at 1.
  unfold bind at 1. unfold bind at 1. unfold bind at 5.
  destruct (interval =? 0); rewrite !last_item_snoc; reflexivity.
Qed.

(** With a callback that leaves the channel alone, all a turn of the loop
    of [read_multiple] does on the channel is polling, however it ends. *)
Lemma multiple_body_trace (interval : Z) (update_graph : callback)
    (args : list value) (st : Multiple.state) (w : world) :
  0 <= interval ->
  silent update_graph args ->
  exists k es,
    forallb polling es = true
    /\ snd (Multiple.body interval update_graph args st w) = extend w k es.
Proof.
  intros Hi Hsil.
  destruct (Py.contains (tag (Multiple.CurrentSample st)) (Multiple.Datum st))
    eqn:Hcur.
  - destruct (Py.float_of_string (sample_text (Multiple.Datum st)))
      as [x |] eqn:Hx.
    + rewrite (multiple_body_callback _ _ _ _ _ _ Hcur Hx).
      pose proof (Hsil (sample_time interval (Multiple.CurrentSample st)) x w)
        as Hw.
      destruct (update_graph
                  (sample_time interval (Multiple.CurrentSample st)) x args w)
        as [[[] | e |] w1] eqn:Hcb; cbn [snd] in Hw; subst w1.
      * exists 1%nat,
          [Sleep interval; Write "B1X"; ReadLine (device w (reads w))].
        split; [reflexivity |].
        erewrite bind_return; cycle 1.
        { rewrite (bind_return _ _ _ _ _ Hcb).
          rewrite (bind_return _ _ _ _ _ (sleep_run _ _ Hi)). reflexivity. }
        rewrite multiple_poll_run, extend_extend. cbn.
        now rewrite Nat.add_0_r.
      * exists 0%nat, []. split; [reflexivity |].
        rewrite (bind_raise _ _ w w e) by (now apply bind_raise).
        now rewrite extend_nil.
      * exists 0%nat, []. split; [reflexivity |].
        rewrite (bind_out_of_fuel _ _ w w) by (now apply bind_out_of_fuel).
        now rewrite extend_nil.
    + exists 0%nat, []. split; [reflexivity |].
      rewrite multiple_body_bad by assumption. now rewrite extend_nil.
  - destruct (multiple_body_skip_polling interval update_graph args st w
                Hi Hcur) as (es & Hp & Hb).
    exists 1%nat, es. split; [exact Hp |]. now rewrite Hb.
Qed.

Lemma multiple_loop_trace (interval samples : Z) (update_graph : callback)
    (args : list value) (fuel : nat) :
  0 <= interval ->
  silent update_graph args ->
  forall (st : Multiple.state) (w : world),
    exists k es,
      forallb polling es = true
      /\ snd (Multiple.loop fuel interval samples update_graph args st w)
         = extend w k es.
Proof.
  intros Hi Hsil. induction fuel as [| fuel IH]; intros st w;
    cbn [Multiple.loop];
    destruct (Multiple.CurrentSample st <=? samples).
  - exists 0%nat, []. split; [reflexivity | now rewrite extend_nil].
  - exists 0%nat, []. split; [reflexivity | now rewrite extend_nil].
  - destruct (multiple_body_trace interval update_graph args st w Hi Hsil)
      as (k1 & es1 & Hp1 & Hb).
    destruct (Multiple.body interval update_graph args st w)
      as [[st1 | e |] w1] eqn:Hbody; cbn [snd] in Hb; subst w1.
    + destruct (IH st1 (extend w k1 es1)) as (k2 & es2 & Hp2 & Hl).
      exists (k1 + k2)%nat, (es1 ++ es2)%list.
      split; [rewrite forallb_app, Hp1, Hp2; reflexivity |].
      rewrite (bind_return _ _ _ _ _ Hbody), Hl.
      apply extend_extend.
    + exists k1, es1. split; [exact Hp1 |].
      now rewrite (bind_raise _ _ _ _ _ Hbody).
    + exists k1, es1. split; [exact Hp1 |].
      now rewrite (bind_out_of_fuel _ _ _ _ Hbody).
  - exists 0%nat, []. split; [reflexivity | now rewrite extend_nil].
Qed.

(** X12: [read_multiple] turns the storage off only when it returns.  With a
    callback that leaves the channel alone (it may fail, as [do_nothing]
    does when it lacks an argument), a call that does not return a result,
    because it raised or ran out of fuel, has done nothing on the channel
    but send the storage command, pause, read lines and poll: the command
    that turns the storage off was not sent. *)
Theorem read_multiple_unfinished
    (interval samples : Z) (update_graph : callback) (args : list value)
    (fuel : nat) (w w' : world) (o : outcome (list value * list float)) :
  silent update_graph args ->
  read_multiple interval samples update_graph args fuel w = (o, w') ->
  (forall r, o <> Return r) ->
  exists k es, w' = extend w k es /\ ~ In (Write "Q7X") es.
Proof.
  intros Hsil H Hnot. unfold read_multiple in H.
  assert (Hstay : exists k es, w = extend w k es /\ ~ In (Write "Q7X") es).
  { exists 0%nat, []. rewrite extend_nil. split; [reflexivity | intros []]. }
  destruct (allowed_interval interval) eqn:Ha; cbn [negb] in H.
  2: { rewrite (bind_raise _ _ w w InvalidInterval) in H by reflexivity.
       injection H as _ <-. exact Hstay. }
  rewrite (bind_return _ _ w w tt) in H by reflexivity.
  destruct (samples >? 100).
  { rewrite (bind_raise _ _ w w TooManySamples) in H by reflexivity.
    injection H as _ <-. exact Hstay. }
  rewrite (bind_return _ _ w w tt) in H by reflexivity.
  destruct (store_data_cases interval w) as [Hst | (cmd & Hst & Hcmd & Hi)].
  { rewrite (bind_raise _ _ _ _ _ Hst) in H. injection H as _ <-.
    exact Hstay. }
  rewrite (bind_return _ _ _ _ _ Hst) in H.
  rewrite (bind_return _ _ _ _ _ (sleep_run _ _ Hi)) in H.
  rewrite (bind_return _ _ _ _ _ (readline_run _)) in H.
  rewrite !extend_extend in H. cbn [device reads extend Nat.add app] in H.
  rewrite Nat.add_0_r in H.
  match type of H with
  | bind (Multiple.loop _ _ _ _ _ ?st0) _ ?w2 = _ =>
      destruct (multiple_loop_trace interval samples update_graph args fuel
                  Hi Hsil st0 w2) as (k & es & Hp & Hl);
      destruct (Multiple.loop fuel interval samples update_graph args st0 w2)
        as [[st' | e |] w3] eqn:Hloop; cbn [snd] in Hl; subst w3
  end.
  - exfalso. rewrite (bind_return _ _ _ _ _ Hloop) in H.
    rewrite (bind_return _ _ _ _ _ (write_run _ _)) in H.
    injection H as <- _. now apply (Hnot (Multiple.Time st', Multiple.Data st')).
  - rewrite (bind_raise _ _ _ _ _ Hloop) in H. injection H as _ <-.
    rewrite extend_extend. eexists _, _. split; [reflexivity |].
    intros [Hin | [Hin | [Hin | Hin]]].
    + injection Hin as Hin. now apply Hcmd.
    + discriminate Hin.
    + discriminate Hin.
    + now apply (polling_no_stop es Hp).
  - rewrite (bind_out_of_fuel _ _ _ _ Hloop) in H. injection H as _ <-.
    rewrite extend_extend. eexists _, _. split; [reflexivity |].
    intros [Hin | [Hin | [Hin | Hin]]].
    + injection Hin as Hin. now apply Hcmd.
    + discriminate Hin.
    + discriminate Hin.
    + now apply (polling_no_stop es Hp).
Qed.

Lemma read_multiple_unfinished_witness :
  exists k es,
    extend (fresh lab_device) 1
      [Write "B1Q2G2X"; Sleep 10; ReadLine "NDCV+1.0000E+00,001"]
    = extend (fresh lab_device) k es
    /\ ~ In (Write "Q7X") es.
Proof.
  apply (read_multiple_unfinished 10 3 do_nothing [] 9 (fresh lab_device) _
           (Raise (TypeError "do_nothing() takes exactly 3 arguments"))).
  - intros t x w. reflexivity.
  - vm_compute. reflexivity.
  - intros r. discriminate.
Defined.

(** X13: asked for no sample (a count of 0 or less) with an allowed
    interval, [read_multiple] still drives the instrument: it sends the
    storage command, pauses, reads one line and turns the storage off, then
    returns no time and no value, without calling the callback. *)
Theorem read_multiple_no_sample
    (interval samples : Z) (update_graph : callback) (args : list value)
    (fuel : nat) (w : world) :
  allowed_interval interval = true ->
  samples <= 0 ->
  exists cmd,
    read_multiple interval samples update_graph args fuel w
    = (Return ([], []),
       extend w 1
         [Write cmd; Sleep interval; ReadLine (device w (reads w));
          Write "Q7X"]).
Proof.
  intros Ha Hs.
  pose proof (allowed_interval_nonneg _ Ha) as Hi.
  destruct (store_data_allowed interval w Ha) as [cmd Hst].
  exists cmd. unfold read_multiple. rewrite Ha. cbn [negb].
  rewrite (bind_return _ _ w w tt) by reflexivity.
  rewrite (bind_return _ _ w w tt)
    by (unfold raise_if; destruct (Z.gtb_spec samples 100);
        [lia | reflexivity]).
  rewrite (bind_return _ _ _ _ _ Hst).
  rewrite (bind_return _ _ _ _ _ (sleep_run _ _ Hi)).
  rewrite (bind_return _ _ _ _ _ (readline_run _)).
  erewrite bind_return
    by (apply multiple_loop_done; cbn [Multiple.CurrentSample]; lia).
  rewrite (bind_return _ _ _ _ _ (write_run _ _)).
  unfold ret. rewrite !extend_extend. cbn.
  now rewrite Nat.add_0_r.
Qed.

Lemma read_multiple_no_sample_witness :
  exists cmd,
    read_multiple 60 0 do_nothing [] 0 (fresh lab_device)
    = (Return ([], []),
       extend (fresh lab_device) 1
         [Write cmd; Sleep 60;
          ReadLine (device (fresh lab_device) (reads (fresh lab_device)));
          Write "Q7X"]).
Proof.
  apply (read_multiple_no_sample 60 0 do_nothing [] 0 (fresh lab_device)).
  - reflexivity.
  - lia.
Defined.

(** ** Further properties: tags and well-formed frames *)

Lemma tag_shape_upto_999 (n : Z) : 0 <= n <= 999 -> tag_shape n = true.
Proof.
  intros Hn.
  assert (Hall : forallb tag_shape (map Z.of_nat (seq 0 1000)) = true)
    by (vm_compute; reflexivity).
  rewrite forallb_forall in Hall. apply Hall.
  apply in_map_iff. exists (Z.to_nat n). split; [lia |].
  apply in_seq. lia.
Qed.

Lemma contains_comma_tail (c : ascii) (s : string) :
  Py.contains "," (String c s) = false -> Py.contains "," s = false.
Proof.
  cbn [Py.contains]. intros H. now apply orb_false_iff in H.
Qed.

(** A string without comma contains no string that starts with one, and can
    be dropped in front of the string searched. *)
Lemma contains_skip (t s r : string) :
  Py.contains "," s = false ->
  Py.contains (String "," t) (s ++ r)%string = Py.contains (String "," t) r.
Proof.
  induction s as [| c s IH]; intros H; [reflexivity |].
  change (String c s ++ r)%string with (String c (s ++ r)%string).
  cbn [Py.contains]. rewrite (IH (contains_comma_tail _ _ H)).
  cbn [String.prefix].
  destruct (ascii_dec "," c) as [<- | _]; [| reflexivity].
  cbn in H. destruct s; discriminate H.
Qed.

Lemma contains_no_comma (t s : string) :
  Py.contains "," s = false -> Py.contains (String "," t) s = false.
Proof.
  intros H. pose proof (contains_skip t s "" H) as E.
  replace (s ++ "")%string with s in E; [exact E |].
  clear. induction s as [| c s IH]; [reflexivity | cbn; now rewrite <- IH].
Qed.

Lemma digit_no_comma (c : ascii) (s : string) :
  Py.is_digit c = true ->
  Py.contains "," s = false ->
  Py.contains "," (String c s) = false.
Proof.
  intros Hd Hs. cbn [Py.contains String.prefix]. rewrite Hs.
  destruct (ascii_dec "," c) as [<- | _]; [discriminate Hd | reflexivity].
Qed.

Lemma contains_cons (sub : string) (c : ascii) (s : string) :
  Py.contains sub (String c s)
  = String.prefix sub (String c s) || Py.contains sub s.
Proof. reflexivity. Qed.

Lemma tag_shape_inv (n : Z) :
  tag_shape n = true ->
  exists a b c,
    tag n = String "," (String a (String b (String c EmptyString)))
    /\ Py.is_digit a = true /\ Py.is_digit b = true /\ Py.is_digit c = true
    /\ 100 * Py.digit_val a + 10 * Py.digit_val b + Py.digit_val c = n.
Proof.
  unfold tag_shape. destruct (tag n) as [| c0 s]; [discriminate |].
  destruct (ascii_dec c0 ",") as [-> | Hc0].
  - destruct s as [| a [| b [| c [| ? ?]]]]; try discriminate.
    intros H.
    apply andb_true_iff in H as [H Hv]. apply andb_true_iff in H as [H Hc].
    apply andb_true_iff in H as [Ha Hb]. apply Z.eqb_eq in Hv.
    exists a, b, c. repeat split; assumption.
  - intros H. exfalso.
    destruct c0 as [[] [] [] [] [] [] [] []]; try discriminate H.
    now apply Hc0.
Qed.

Lemma digit_val_inj (a b : ascii) :
  Py.digit_val a = Py.digit_val b -> a = b.
Proof.
  unfold Py.digit_val. intros H.
  rewrite <- (ascii_N_embedding a), <- (ascii_N_embedding b).
  f_equal. lia.
Qed.

Lemma digit_val_range (a : ascii) :
  Py.is_digit a = true -> 0 <= Py.digit_val a <= 9.
Proof.
  unfold Py.is_digit, Py.digit_val. intros H.
  apply andb_true_iff in H as [H1 H2].
  apply N.leb_le in H1, H2. lia.
Qed.

(** X14: a well-formed frame is recognised by its own index only.  In a line
    made of a prefix without comma, the tag of [j] and a suffix without
    comma, the tag of [i] occurs exactly when [i = j], for indices from 0 to
    999.  So the loop accepts such a frame when [j] is the expected index,
    takes it as stale when [j] is the one before, and passes it over
    otherwise. *)
Theorem well_formed_frame_tag (pre suf : string) (i j : Z) :
  Py.contains "," pre = false ->
  Py.contains "," suf = false ->
  0 <= i <= 999 ->
  0 <= j <= 999 ->
  Py.contains (tag i) (pre ++ tag j ++ suf)%string = (i =? j).
Proof.
  intros Hpre Hsuf Hi Hj.
  destruct (tag_shape_inv i (tag_shape_upto_999 i Hi))
    as (a1 & b1 & c1 & Ei & Ha1 & Hb1 & Hc1 & Vi).
  destruct (tag_shape_inv j (tag_shape_upto_999 j Hj))
    as (a2 & b2 & c2 & Ej & Ha2 & Hb2 & Hc2 & Vj).
  rewrite Ei, Ej.
  rewrite (contains_skip _ pre _ Hpre).
  cbn [String.append]. rewrite contains_cons.
  rewrite (contains_no_comma _ (String a2 (String b2 (String c2 suf))))
    by (repeat apply digit_no_comma; assumption).
  rewrite orb_false_r. cbn [String.prefix].
  pose proof (digit_val_range _ Ha1). pose proof (digit_val_range _ Hb1).
  pose proof (digit_val_range _ Hc1). pose proof (digit_val_range _ Ha2).
  pose proof (digit_val_range _ Hb2). pose proof (digit_val_range _ Hc2).
  destruct (ascii_dec "," ",") as [_ | Hn]; [| now contradiction Hn].
  destruct (ascii_dec a1 a2) as [-> | Ha];
    [destruct (ascii_dec b1 b2) as [-> | Hb];
       [destruct (ascii_dec c1 c2) as [-> | Hc] | ] | ].
  - destruct suf; symmetry; apply Z.eqb_eq; lia.
  - symmetry. apply Z.eqb_neq. intros E. apply Hc, digit_val_inj. lia.
  - symmetry. apply Z.eqb_neq. intros E. apply Hb, digit_val_inj. lia.
  - symmetry. apply Z.eqb_neq. intros E. apply Ha, digit_val_inj. lia.
Qed.

Lemma well_formed_frame_tag_witness :
  Py.contains (tag 2) ("NDCV+2.5000E+00" ++ tag 2 ++ "")%string = (2 =? 2).
Proof.
  apply (well_formed_frame_tag "NDCV+2.5000E+00" "" 2 2).
  - reflexivity.
  - reflexivity.
  - lia.
  - lia.
Defined.
